(** * Study-room service: a shallow embedding of the request handlers

    The development follows [app/controllers/study_room_controller.py] and
    [app/models/study_room.py].  Python values are embedded as an inductive
    type, exceptions as an error monad, the database as a finite map from
    primary keys to rows, and every handler as a function from the request
    (and the database) to the response (and the new database). *)

From stdpp Require Import gmap strings list fin_maps pretty.
From Stdlib Require Import ZArith Lia Ascii.

Local Open Scope Z_scope.

(** ** Exceptions *)

Inductive exn_class :=
  AttributeError | ValueError | TypeError | OverflowError | OtherError.

Record exn := Exn { exn_kind : exn_class; exn_str : string }.

Inductive result (A : Type) : Type :=
| Ok (a : A)
| Raise (e : exn).
Arguments Ok {A} a.
Arguments Raise {A} e.

#[global] Instance result_bind : MBind result := λ A B k r,
  match r with
  | Ok a => k a
  | Raise e => Raise e
  end.

#[global] Instance result_ret : MRet result := λ A a, Ok a.

#[global] Instance result_fmap : FMap result := λ A B g r,
  match r with
  | Ok a => Ok (g a)
  | Raise e => Raise e
  end.

(** [except (ValueError, TypeError)] *)
Definition value_or_type_error (e : exn) : bool :=
  match exn_kind e with
  | ValueError | TypeError => true
  | _ => false
  end.

(** [except ValueError] *)
Definition value_error (e : exn) : bool :=
  match exn_kind e with
  | ValueError => true
  | _ => false
  end.

(** [except (AttributeError, ValueError)] *)
Definition attribute_or_value_error (e : exn) : bool :=
  match exn_kind e with
  | AttributeError | ValueError => true
  | _ => false
  end.

(** ** Characters and strings

    A Python [str] is modelled by a [string] whose characters are the code
    points below 256.  In that range the decimal digits are the ASCII ones
    and the white space of [str.strip] and [int] is the set below. *)

Definition code (c : ascii) : Z := Z.of_N (Ascii.N_of_ascii c).

Definition py_isspace (c : ascii) : bool :=
  let n := code c in
  ((9 <=? n) && (n <=? 13)) || ((28 <=? n) && (n <=? 32))
  || (n =? 133) || (n =? 160).

Definition is_digit (c : ascii) : bool :=
  let n := code c in (48 <=? n) && (n <=? 57).

Definition digit_val (c : ascii) : Z := code c - 48.

Fixpoint lstrip (s : string) : string :=
  match s with
  | EmptyString => EmptyString
  | String c s' => if py_isspace c then lstrip s' else s
  end.

Fixpoint rstrip (s : string) : string :=
  match s with
  | EmptyString => EmptyString
  | String c s' =>
      match rstrip s' with
      | EmptyString => if py_isspace c then EmptyString else String c EmptyString
      | r => String c r
      end
  end.

(** [s.strip()] *)
Definition str_strip (s : string) : string := rstrip (lstrip s).

Fixpoint str_prefix (p s : string) : bool :=
  match p, s with
  | EmptyString, _ => true
  | String a p', String b s' => bool_decide (a = b) && str_prefix p' s'
  | String _ _, EmptyString => false
  end.

(** [p in s] for two strings *)
Fixpoint str_contains (p s : string) : bool :=
  str_prefix p s ||
  match s with
  | EmptyString => false
  | String _ s' => str_contains p s'
  end.

(** The digits of an [int] literal: single underscores are allowed between
    digits. [seen] says whether the previous character was a digit. *)
Fixpoint int_digits (s : string) (acc : Z) (seen : bool) : option Z :=
  match s with
  | EmptyString => if seen then Some acc else None
  | String c s' =>
      if bool_decide (c = "_"%char)
      then (if seen then int_digits s' acc false else None)
      else if is_digit c then int_digits s' (10 * acc + digit_val c) true
      else None
  end.

(** The number of digits of a literal, and the most that [int] converts
    ([sys.int_info.default_max_str_digits]) *)
Fixpoint digit_count (s : string) : Z :=
  match s with
  | EmptyString => 0
  | String c s' => (if is_digit c then 1 else 0) + digit_count s'
  end.

Definition int_max_str_digits : Z := 4300.

(** The value of an unsigned literal *)
Definition int_of_digits (s : string) : result Z :=
  if int_max_str_digits <? digit_count s
  then Raise (Exn ValueError "Exceeds the limit (4300 digits) for integer string conversion")
  else match int_digits s 0 false with
       | Some n => Ok n
       | None => Raise (Exn ValueError "invalid literal for int() with base 10")
       end.

(** [int(s)] for a string [s], base 10 *)
Definition int_of_str (s : string) : result Z :=
  match str_strip s with
  | String c s' =>
      if bool_decide (c = "-"%char) then Z.opp <$> int_of_digits s'
      else if bool_decide (c = "+"%char) then int_of_digits s'
      else int_of_digits (String c s')
  | EmptyString => Raise (Exn ValueError "invalid literal for int() with base 10")
  end.

(** Zero-padded decimal fields, as [%02d], [%04d] and [%06d] print the
    fields of a date or a time (which are in range by construction). *)
Definition digit_char (d : Z) : ascii := Ascii.ascii_of_N (Z.to_N (48 + d)).

Definition pad2 (n : Z) : string :=
  String (digit_char (n / 10)) (String (digit_char (n mod 10)) EmptyString).

Definition pad4 (n : Z) : string :=
  String (digit_char (n / 1000))
    (String (digit_char (n / 100 mod 10)) (pad2 (n mod 100))).

Definition pad6 (n : Z) : string :=
  String (digit_char (n / 100000))
    (String (digit_char (n / 10000 mod 10)) (pad4 (n mod 10000))).

(** ** Dates and times ([datetime.date], [datetime.time], [datetime.datetime]) *)

Record py_date := Date { year : Z; month : Z; day : Z }.

Record py_time := Time { t_hour : Z; t_minute : Z; t_second : Z; t_microsecond : Z }.

#[global] Instance py_time_eq_dec : EqDecision py_time.
Proof. solve_decision. Defined.

Record py_datetime := DateTime { dt_date : py_date; dt_time : py_time }.

(** [datetime.combine(d, t)] for a date [d] *)
Definition combine (d : py_date) (t : py_time) : py_datetime := DateTime d t.

Definition is_leap (y : Z) : bool :=
  (y mod 4 =? 0) && (negb (y mod 100 =? 0) || (y mod 400 =? 0)).

Definition days_in_month (y m : Z) : Z :=
  if m =? 2 then (if is_leap y then 29 else 28)
  else if (m =? 4) || (m =? 6) || (m =? 9) || (m =? 11) then 30
  else 31.

(** The check of the [date] constructor *)
Definition valid_date (d : py_date) : bool :=
  (1 <=? year d) && (year d <=? 9999) &&
  (1 <=? month d) && (month d <=? 12) &&
  (1 <=? day d) && (day d <=? days_in_month (year d) (month d)).

Definition valid_time (t : py_time) : bool :=
  (0 <=? t_hour t) && (t_hour t <=? 23) &&
  (0 <=? t_minute t) && (t_minute t <=? 59) &&
  (0 <=? t_second t) && (t_second t <=? 59) &&
  (0 <=? t_microsecond t) && (t_microsecond t <=? 999999).

(** [d.isoformat()] *)
Definition date_isoformat (d : py_date) : string :=
  pad4 (year d) +:+ "-" +:+ pad2 (month d) +:+ "-" +:+ pad2 (day d).

Definition time_isoformat (t : py_time) : string :=
  pad2 (t_hour t) +:+ ":" +:+ pad2 (t_minute t) +:+ ":" +:+ pad2 (t_second t)
  +:+ (if t_microsecond t =? 0 then "" else "." +:+ pad6 (t_microsecond t)).

(** [dt.isoformat(sep)] *)
Definition datetime_isoformat (sep : string) (dt : py_datetime) : string :=
  date_isoformat (dt_date dt) +:+ sep +:+ time_isoformat (dt_time dt).

(** [x.strftime('%H:%M')]; a [date] prints midnight *)
Definition time_strftime_HM (t : py_time) : string :=
  pad2 (t_hour t) +:+ ":" +:+ pad2 (t_minute t).

(** *** [datetime.strptime]

    The format is turned into a regular expression, one group per
    directive, each group an ordered choice of sequences of character
    classes.  The match is the first one in the order of a backtracking
    matcher, and it has to cover the whole string. *)

Definition cls := ascii → bool.

Definition one (c : ascii) : cls := λ x, bool_decide (x = c).
Definition range (lo hi : ascii) : cls := λ x, (code lo <=? code x) && (code x <=? code hi).

Inductive directive :=
| Lit (c : ascii)
| Grp (alts : list (list cls)).

Definition re_Y : directive := Grp [[is_digit; is_digit; is_digit; is_digit]].
Definition re_m : directive :=
  Grp [[one "1"; range "0" "2"]; [one "0"; range "1" "9"]; [range "1" "9"]].
Definition re_d : directive :=
  Grp [[one "3"; range "0" "1"]; [range "1" "2"; is_digit]; [one "0"; range "1" "9"];
       [range "1" "9"]; [one " "; range "1" "9"]].
Definition re_H : directive :=
  Grp [[one "2"; range "0" "3"]; [range "0" "1"; is_digit]; [is_digit]].
Definition re_M : directive :=
  Grp [[range "0" "5"; is_digit]; [is_digit]].

(** ['%Y-%m-%d'] and ['%H:%M'] *)
Definition fmt_Ymd : list directive := [re_Y; Lit "-"; re_m; Lit "-"; re_d].
Definition fmt_HM : list directive := [re_H; Lit ":"; re_M].

(** The text matched by a sequence of classes at the head of [s], and the rest *)
Fixpoint match_seq (p : list cls) (s : string) : option (string * string) :=
  match p with
  | [] => Some (EmptyString, s)
  | k :: p' =>
      match s with
      | String c s' =>
          if k c
          then match match_seq p' s' with
               | Some (m, r) => Some (String c m, r)
               | None => None
               end
          else None
      | EmptyString => None
      end
  end.

(** Every way to match the format at the head of [s], in the matcher's order:
    the texts of the groups and the rest of the string *)
Fixpoint match_format (fmt : list directive) (s : string) : list (list string * string) :=
  match fmt with
  | [] => [([], s)]
  | Lit c :: fmt' =>
      match s with
      | String x s' => if bool_decide (x = c) then match_format fmt' s' else []
      | EmptyString => []
      end
  | Grp alts :: fmt' =>
      flat_map (λ alt,
        match match_seq alt s with
        | Some (m, r) => (λ '(gs, rest), (m :: gs, rest)) <$> match_format fmt' r
        | None => []
        end) alts
  end.

(** The groups found by [re.match], or [ValueError] *)
Definition strptime_groups (fmt : list directive) (s : string) : result (list string) :=
  match match_format fmt s with
  | [] => Raise (Exn ValueError "time data does not match format")
  | (gs, EmptyString) :: _ => Ok gs
  | (_, String _ _) :: _ => Raise (Exn ValueError "unconverted data remains")
  end.

(** [datetime.strptime(s, '%Y-%m-%d').date()] *)
Definition strptime_date (s : string) : result py_date :=
  gs ← strptime_groups fmt_Ymd s;
  match gs with
  | [ys; ms; ds] =>
      y ← int_of_str ys;
      m ← int_of_str ms;
      d ← int_of_str ds;
      if valid_date (Date y m d) then Ok (Date y m d)
      else Raise (Exn ValueError "day is out of range for month")
  | _ => Raise (Exn ValueError "time data does not match format")
  end.

(** [datetime.strptime(s, '%H:%M').time()] *)
Definition strptime_time (s : string) : result py_time :=
  gs ← strptime_groups fmt_HM s;
  match gs with
  | [hs; ms] =>
      h ← int_of_str hs;
      m ← int_of_str ms;
      Ok (Time h m 0 0)
  | _ => Raise (Exn ValueError "time data does not match format")
  end.

(** The part of ['%Y-%m-%d'] after the year *)
Definition fmt_md : list directive := [Lit "-"; re_m; Lit "-"; re_d].

(** Checks used to go through the months, days, hours and minutes *)
Definition md_check (m d : Z) : bool :=
  match match_format fmt_md ("-" +:+ pad2 m +:+ "-" +:+ pad2 d) with
  | (gs, EmptyString) :: _ => bool_decide (gs = [pad2 m; pad2 d])
  | _ => false
  end.

Definition hm_check (h m : Z) : bool :=
  match strptime_time (pad2 h +:+ ":" +:+ pad2 m) with
  | Ok t => bool_decide (t = Time h m 0 0)
           && bool_decide (str_strip (pad2 h +:+ ":" +:+ pad2 m) = pad2 h +:+ ":" +:+ pad2 m)
  | Raise _ => false
  end.

Definition pad2_check (n : Z) : bool :=
  match int_of_str (pad2 n) with
  | Ok k => k =? n
  | Raise _ => false
  end.

Fixpoint no_space (s : string) : bool :=
  match s with
  | EmptyString => true
  | String c s' => negb (py_isspace c) && no_space s'
  end.

(** ** Python values

    [pyval] are the values a column of a row can hold; [PyObj] stands for an
    object of any other class (no [strip], [strftime], [isoformat] or
    [__int__], not a container), known by the name of its class, its truth
    value, its [str()] and whether the JSON encoder accepts it.  [json] adds
    the containers of request payloads and response bodies. *)

(** A [float]: a finite one is [m * 2 ^ e]; a JSON number too large for a
    double, such as 1e400, is read as infinity. *)
Inductive py_float :=
| FloatFinite (m e : Z)
| FloatInf (negative : bool)
| FloatNaN.

(** [int(x)] for a float: truncation towards zero *)
Definition int_of_float (x : py_float) : result Z :=
  match x with
  | FloatFinite m e => Ok (if 0 <=? e then m * 2 ^ e else Z.quot m (2 ^ (- e)))
  | FloatInf _ => Raise (Exn OverflowError "cannot convert float infinity to integer")
  | FloatNaN => Raise (Exn ValueError "cannot convert float NaN to integer")
  end.

Definition float_truthy (x : py_float) : bool :=
  match x with
  | FloatFinite m _ => negb (m =? 0)
  | _ => true
  end.

(** [PyFloat x text]: the float [x], with its [str()] taken as given *)
Inductive pyval :=
| PyNone
| PyBool (b : bool)
| PyInt (z : Z)
| PyStr (s : string)
| PyDate (d : py_date)
| PyDateTime (dt : py_datetime)
| PyObj (ty : string) (truthy : bool) (text : string) (encodable : bool)
| PyFloat (x : py_float) (text : string).

#[warnings="-register-all"]
Inductive json :=
| JVal (v : pyval)
| JList (l : list json)
| JDict (m : gmap string json).

Definition JStr (s : string) : json := JVal (PyStr s).
Definition JInt (z : Z) : json := JVal (PyInt z).
Definition JNone : json := JVal PyNone.

(** A dict display [{k1: v1, ...}] *)
Definition mkdict (l : list (string * json)) : json := JDict (list_to_map l).

Definition type_name (v : pyval) : string :=
  match v with
  | PyNone => "NoneType"
  | PyBool _ => "bool"
  | PyInt _ => "int"
  | PyStr _ => "str"
  | PyDate _ => "date"
  | PyDateTime _ => "datetime"
  | PyObj ty _ _ _ => ty
  | PyFloat _ _ => "float"
  end.

Definition json_type_name (j : json) : string :=
  match j with
  | JVal v => type_name v
  | JList _ => "list"
  | JDict _ => "dict"
  end.

(** [bool(v)] *)
Definition py_truthy (v : pyval) : bool :=
  match v with
  | PyNone => false
  | PyBool b => b
  | PyInt z => negb (z =? 0)
  | PyStr s => negb (bool_decide (s = ""))
  | PyDate _ | PyDateTime _ => true
  | PyObj _ t _ _ => t
  | PyFloat x _ => float_truthy x
  end.

Definition json_truthy (j : json) : bool :=
  match j with
  | JVal v => py_truthy v
  | JList l => match l with [] => false | _ => true end
  | JDict m => match map_to_list m with [] => false | _ => true end
  end.

(** [str(v)] *)
Definition py_str (v : pyval) : string :=
  match v with
  | PyNone => "None"
  | PyBool b => if b then "True" else "False"
  | PyInt z => pretty z
  | PyStr s => s
  | PyDate d => date_isoformat d
  | PyDateTime dt => datetime_isoformat " " dt
  | PyObj _ _ s _ => s
  | PyFloat _ s => s
  end.

Definition is_none (v : pyval) : bool :=
  match v with PyNone => true | _ => false end.

(** [x if x else d] *)
Definition if_else (x d : pyval) : pyval := if py_truthy x then x else d.

Definition attribute_error (ty attr : string) : exn :=
  Exn AttributeError ("'" +:+ ty +:+ "' object has no attribute '" +:+ attr +:+ "'").

(** [v.strip()] *)
Definition py_strip (v : json) : result string :=
  match v with
  | JVal (PyStr s) => Ok (str_strip s)
  | _ => Raise (attribute_error (json_type_name v) "strip")
  end.

(** [int(v)] *)
Definition py_int (v : json) : result Z :=
  match v with
  | JVal (PyInt z) => Ok z
  | JVal (PyBool b) => Ok (if b then 1 else 0)
  | JVal (PyStr s) => int_of_str s
  | JVal (PyFloat x _) => int_of_float x
  | _ => Raise (Exn TypeError
           ("int() argument must be a string, a bytes-like object or a real number, not '"
            +:+ json_type_name v +:+ "'"))
  end.

(** [v.isoformat()] *)
Definition py_isoformat (v : pyval) : result string :=
  match v with
  | PyDate d => Ok (date_isoformat d)
  | PyDateTime dt => Ok (datetime_isoformat "T" dt)
  | _ => Raise (attribute_error (type_name v) "isoformat")
  end.

(** [v.strftime('%H:%M')] *)
Definition py_strftime_HM (v : pyval) : result string :=
  match v with
  | PyDate _ => Ok (time_strftime_HM (Time 0 0 0 0))
  | PyDateTime dt => Ok (time_strftime_HM (dt_time dt))
  | _ => Raise (attribute_error (type_name v) "strftime")
  end.

(** [datetime.combine(v, t)]: the first argument has to be a date (a
    datetime is one, and gives its date part) *)
Definition py_combine (v : pyval) (t : py_time) : result py_datetime :=
  match v with
  | PyDate d => Ok (combine d t)
  | PyDateTime dt => Ok (combine (dt_date dt) t)
  | _ => Raise (Exn TypeError
           ("combine() argument 1 must be datetime.date, not " +:+ type_name v))
  end.

(** [field in data] *)
Definition py_in (field : string) (data : json) : result bool :=
  match data with
  | JDict m => Ok (bool_decide (is_Some (m !! field)))
  | JList l => Ok (existsb (λ x, match x with
                                 | JVal (PyStr s) => bool_decide (s = field)
                                 | _ => false
                                 end) l)
  | JVal (PyStr s) => Ok (str_contains field s)
  | JVal v => Raise (Exn TypeError
                ("argument of type '" +:+ type_name v +:+ "' is not iterable"))
  end.

(** [data.get(key, default)] *)
Definition py_get (data : json) (key : string) (dflt : json) : result json :=
  match data with
  | JDict m => Ok (default dflt (m !! key))
  | _ => Raise (attribute_error (json_type_name data) "get")
  end.

(** [data[key]] for a string [key] known to be [in data] *)
Definition py_getitem (data : json) (key : string) : result json :=
  match data with
  | JDict m =>
      match m !! key with
      | Some v => Ok v
      | None => Raise (Exn OtherError ("'" +:+ key +:+ "'"))
      end
  | JList _ => Raise (Exn TypeError "list indices must be integers or slices, not str")
  | JVal (PyStr _) => Raise (Exn TypeError "string indices must be integers, not 'str'")
  | JVal v => Raise (Exn TypeError ("'" +:+ type_name v +:+ "' object is not subscriptable"))
  end.

(** Whether the JSON encoder of [jsonify] accepts the value *)
Fixpoint encodable (j : json) : bool :=
  match j with
  | JVal (PyObj _ _ _ e) => e
  | JVal _ => true
  | JList l => forallb encodable l
  | JDict m => map_fold (λ _ v acc, encodable v && acc) true m
  end.

Definition response : Type := json * Z.

(** [jsonify(body), status] *)
Definition jsonify (body : json) (status : Z) : result response :=
  if encodable body then Ok (body, status)
  else Raise (Exn TypeError "Object is not JSON serializable").

Definition message (msg : string) : json := mkdict [("message", JStr msg)].

(** ** The data model ([app/models/study_room.py]) *)

(** Modelled from the spec: the User entity is not part of these sources; it
    exposes [id], [username] and [email], and a row reaches it through the
    [creator] relationship when that relationship is declared. *)
Record User := { user_id : Z; username : string; email : string }.

(** A row of [study_rooms]. [room_id] is [None] until the row is inserted. *)
Record StudyRoom := {
  room_id : option Z;
  name : pyval;
  description : pyval;
  capacity : pyval;
  creator_id : pyval;
  date : pyval;
  start_time : pyval;
  end_time : pyval;
  location : pyval;
  mode : pyval
}.

(** [StudyRoom.__init__] *)
Definition StudyRoom_init (name capacity creator_id description date start_time
    end_time location mode : pyval) : StudyRoom :=
  {| room_id := None; name := name; description := description;
     capacity := capacity; creator_id := creator_id; date := date;
     start_time := start_time; end_time := end_time; location := location;
     mode := mode |}.

Definition set_room_id (r : StudyRoom) (i : option Z) : StudyRoom :=
  {| room_id := i; name := name r; description := description r;
     capacity := capacity r; creator_id := creator_id r; date := date r;
     start_time := start_time r; end_time := end_time r;
     location := location r; mode := mode r |}.
Definition set_name (r : StudyRoom) (v : pyval) : StudyRoom :=
  {| room_id := room_id r; name := v; description := description r;
     capacity := capacity r; creator_id := creator_id r; date := date r;
     start_time := start_time r; end_time := end_time r;
     location := location r; mode := mode r |}.
Definition set_description (r : StudyRoom) (v : pyval) : StudyRoom :=
  {| room_id := room_id r; name := name r; description := v;
     capacity := capacity r; creator_id := creator_id r; date := date r;
     start_time := start_time r; end_time := end_time r;
     location := location r; mode := mode r |}.
Definition set_capacity (r : StudyRoom) (v : pyval) : StudyRoom :=
  {| room_id := room_id r; name := name r; description := description r;
     capacity := v; creator_id := creator_id r; date := date r;
     start_time := start_time r; end_time := end_time r;
     location := location r; mode := mode r |}.
Definition set_date (r : StudyRoom) (v : pyval) : StudyRoom :=
  {| room_id := room_id r; name := name r; description := description r;
     capacity := capacity r; creator_id := creator_id r; date := v;
     start_time := start_time r; end_time := end_time r;
     location := location r; mode := mode r |}.
Definition set_start_time (r : StudyRoom) (v : pyval) : StudyRoom :=
  {| room_id := room_id r; name := name r; description := description r;
     capacity := capacity r; creator_id := creator_id r; date := date r;
     start_time := v; end_time := end_time r;
     location := location r; mode := mode r |}.
Definition set_end_time (r : StudyRoom) (v : pyval) : StudyRoom :=
  {| room_id := room_id r; name := name r; description := description r;
     capacity := capacity r; creator_id := creator_id r; date := date r;
     start_time := start_time r; end_time := v;
     location := location r; mode := mode r |}.
Definition set_location (r : StudyRoom) (v : pyval) : StudyRoom :=
  {| room_id := room_id r; name := name r; description := description r;
     capacity := capacity r; creator_id := creator_id r; date := date r;
     start_time := start_time r; end_time := end_time r;
     location := v; mode := mode r |}.
Definition set_mode (r : StudyRoom) (v : pyval) : StudyRoom :=
  {| room_id := room_id r; name := name r; description := description r;
     capacity := capacity r; creator_id := creator_id r; date := date r;
     start_time := start_time r; end_time := end_time r;
     location := location r; mode := v |}.

(** Modelled from the spec: the storage layer is not part of these sources.
    It holds the rows by primary key as stored, the users, and whether the
    [creator] relationship is declared on rows; it "assigns [room_id] on
    insert", each key "assigned exactly once, never reused", which the model
    renders by the next key [next_id], a counter no operation lowers. *)
Record database := {
  rooms : gmap Z StudyRoom;
  next_id : Z;
  users : gmap Z User;
  creator_rel : bool
}.

(** What the storage layer does wrong during one request: the exception, if
    any, raised by a query, by the lazy load of a relationship, by commit. *)
Record faults := {
  query_fault : option exn;
  load_fault : option exn;
  commit_fault : option exn
}.

Definition no_faults : faults :=
  {| query_fault := None; load_fault := None; commit_fault := None |}.

(** An attribute of an object: not there, raising when read, or a value *)
Inductive attr (A : Type) : Type :=
| AttrMissing
| AttrRaise (e : exn)
| AttrValue (v : option A).
Arguments AttrMissing {A}.
Arguments AttrRaise {A} e.
Arguments AttrValue {A} v.

(** [room.creator] *)
Definition room_creator (f : faults) (db : database) (room : StudyRoom) : attr User :=
  if creator_rel db then
    match load_fault f with
    | Some e => AttrRaise e
    | None => AttrValue (match creator_id room with
                         | PyInt z => users db !! z
                         | _ => None
                         end)
    end
  else AttrMissing.

(** [obj.attr] *)
Definition attr_get {A} (a : attr A) : result (option A) :=
  match a with
  | AttrMissing => Raise (attribute_error "StudyRoom" "creator")
  | AttrRaise e => Raise e
  | AttrValue v => Ok v
  end.

(** [hasattr(obj, attr)]: only an [AttributeError] means no *)
Definition py_hasattr {A} (a : attr A) : result bool :=
  match attr_get a with
  | Ok _ => Ok true
  | Raise e =>
      match exn_kind e with
      | AttributeError => Ok false
      | _ => Raise e
      end
  end.

Definition py_of_id (i : option Z) : pyval :=
  match i with
  | Some z => PyInt z
  | None => PyNone
  end.

(** Modelled from the spec: the storage layer is not part of these sources.
    The model declares [date] a [db.Date] column and [start_time] and
    [end_time] [db.DateTime] columns (study_room.py, lines 14-16), whose
    values "must be parseable calendar values": a row loads when these hold
    null, a date, a datetime; anything else that is stored there (a text
    that is no datetime, say) makes the load raise [ValueError]. *)
Definition loads_date (v : pyval) : bool :=
  match v with
  | PyNone | PyDate _ => true
  | _ => false
  end.

Definition loads_datetime (v : pyval) : bool :=
  match v with
  | PyNone | PyDateTime _ => true
  | _ => false
  end.

Definition row_loads (row : StudyRoom) : bool :=
  loads_date (date row) && loads_datetime (start_time row)
  && loads_datetime (end_time row).

Definition load_error : exn := Exn ValueError "Couldn't parse datetime string".

(** [StudyRoom.query.get(id)] *)
Definition query_get (f : faults) (db : database) (id : Z) : result (option StudyRoom) :=
  match query_fault f with
  | Some e => Raise e
  | None =>
      match rooms db !! id with
      | Some row => if row_loads row then Ok (Some row) else Raise load_error
      | None => Ok None
      end
  end.

(** [StudyRoom.query.all()] *)
Definition query_all (f : faults) (db : database) : result (list StudyRoom) :=
  match query_fault f with
  | Some e => Raise e
  | None =>
      let rows := (map_to_list (rooms db)).*2 in
      if forallb row_loads rows then Ok rows else Raise load_error
  end.

(** [try: r  except <catch>: handler], followed by [k] *)
Definition try_except {A B} (r : result A) (catch : exn → bool)
    (handler : result B) (k : A → result B) : result B :=
  match r with
  | Ok a => k a
  | Raise e => if catch e then handler else Raise e
  end.

(** The [creator_data] dict of the three serializers: filled when the row
    has a [creator] attribute holding a user, empty otherwise. *)
Definition creator_dict (u : User) : gmap string json :=
  list_to_map [("id", JInt (user_id u)); ("username", JStr (username u));
               ("email", JStr (email u))].

Definition creator_data (a : attr User) : result (gmap string json) :=
  has ← py_hasattr a;
  if has : bool then
    c ← attr_get a;
    match c with
    | Some u => Ok (creator_dict u)
    | None => Ok ∅
    end
  else Ok ∅.

(** [date_str] of the two read handlers (lines 137-143, 250-256): [None]
    for a null date, its ISO form or else its [str] *)
Definition read_date_str (v : pyval) : result (option string) :=
  if is_none v then Ok None
  else try_except (py_isoformat v) attribute_or_value_error
         (Ok (Some (py_str v))) (λ s, Ok (Some s)).

(** [start_time_str] / [end_time_str] of the two read handlers
    (lines 135-161, 248-274) *)
Definition read_time_str (v : pyval) : result string :=
  if is_none v then Ok "00:00"
  else try_except (py_strftime_HM v) attribute_or_value_error
         (match v with
          | PyStr s => Ok s
          | _ => Ok "00:00"
          end) (λ s, Ok s).

(** [s if s else d] on strings *)
Definition str_or (s d : string) : string :=
  if bool_decide (s = "") then d else s.

(** ** [StudyRoom.to_dict] *)

Definition to_dict_date_str (v : pyval) : result string :=
  if is_none v then Ok ""
  else try_except (py_isoformat v) attribute_or_value_error
         (Ok (if py_truthy v then py_str v else "")) (λ s, Ok s).

(** Lines 60-66 and 68-74 *)
Definition to_dict_time_str (v : pyval) : result string :=
  s ← (if py_truthy v
       then try_except (py_strftime_HM v) attribute_or_value_error
              (Ok (if py_truthy v then py_str v else "00:00")) (λ s, Ok s)
       else Ok "00:00");
  if bool_decide (s = "") || negb (Nat.eqb (String.length s) 5)
  then Ok "00:00" else Ok s.

Definition to_dict_try (f : faults) (db : database) (self : StudyRoom) : result json :=
  creator_data ← creator_data (room_creator f db self);
  date_str ← to_dict_date_str (date self);
  start_time_str ← to_dict_time_str (start_time self);
  end_time_str ← to_dict_time_str (end_time self);
  let host_name :=
    if json_truthy (JDict creator_data)
    then default (JStr "Anonymous") (creator_data !! "username")
    else JStr "Anonymous" in
  Ok (mkdict [
    ("room_id", JVal (py_of_id (room_id self)));
    ("id", JStr ("room-" +:+ py_str (py_of_id (room_id self))));
    ("name", JVal (if_else (name self) (PyStr "")));
    ("subject", JVal (if_else (description self) (PyStr "")));
    ("description", JVal (if_else (description self) (PyStr "")));
    ("capacity", JVal (if_else (capacity self) (PyInt 0)));
    ("participants", JList []);
    ("host", host_name);
    ("creator_id", JVal (creator_id self));
    ("creator", JDict creator_data);
    ("date", JStr date_str);
    ("start_time", JStr start_time_str);
    ("end_time", JStr end_time_str);
    ("location", JVal (if_else (location self) (PyStr "")));
    ("mode", JVal (if_else (mode self) (PyStr "")))]).

Definition to_dict_fallback (self : StudyRoom) : json :=
  mkdict [
    ("room_id", JVal (py_of_id (room_id self)));
    ("id", JStr ("room-" +:+ py_str (py_of_id (room_id self))));
    ("name", JVal (name self));
    ("subject", JStr "");
    ("description", JStr "");
    ("capacity", JInt 0);
    ("participants", JList []);
    ("host", JStr "Anonymous");
    ("creator_id", JVal (creator_id self));
    ("creator", mkdict [("id", JInt 0); ("username", JStr "Anonymous"); ("email", JStr "")]);
    ("date", JStr "");
    ("start_time", JStr "00:00");
    ("end_time", JStr "00:00");
    ("location", JStr "");
    ("mode", JStr "");
    ("error", JStr "Data serialization error")].

Definition to_dict (f : faults) (db : database) (self : StudyRoom) : json :=
  match to_dict_try f db self with
  | Ok d => d
  | Raise _ => to_dict_fallback self
  end.

(** ** The request handlers ([app/controllers/study_room_controller.py]) *)

Definition required_fields : list string :=
  ["name"; "capacity"; "creator_id"; "date"; "start_time"; "end_time";
   "location"; "mode"].

(** [all(field in data for field in fields)] *)
Fixpoint all_in (fields : list string) (data : json) : result bool :=
  match fields with
  | [] => Ok true
  | k :: ks =>
      b ← py_in k data;
      if b : bool then all_in ks data else Ok false
  end.

(** The value bound to [description] by lines 89-91: a truthy value is
    stripped; a falsy one is kept as it is (an empty list or dict is then an
    object of that class). *)
Definition falsy_value (j : json) : pyval :=
  match j with
  | JVal v => v
  | JList _ => PyObj "list" false "[]" true
  | JDict _ => PyObj "dict" false "{}" true
  end.

(** Modelled from the spec: [db.session.add(room); db.session.commit()],
    where the storage layer (not part of these sources) assigns the key of
    the new row: the next key, never one that was assigned before. *)
Definition commit_new (f : faults) (db : database) (room : StudyRoom)
    : result (StudyRoom * database) :=
  match commit_fault f with
  | Some e => Raise e
  | None =>
      let id := next_id db in
      let row := set_room_id room (Some id) in
      Ok (row, {| rooms := <[id := row]> (rooms db); next_id := id + 1;
                  users := users db; creator_rel := creator_rel db |})
  end.

Definition create_try (f : faults) (db : database) (data : json)
    : result (response * database) :=
  let bad (msg : string) : result (response * database) :=
    Ok ((message msg, 400), db) in
  if negb (json_truthy data) then bad "Missing required fields" else
  present ← all_in required_fields data;
  if negb present then bad "Missing required fields" else
  name_v ← py_get data "name" (JStr "");
  name ← py_strip name_v;
  if bool_decide (name = "") then bad "Study room name cannot be empty" else
  capacity_v ← py_get data "capacity" JNone;
  try_except (py_int capacity_v) value_or_type_error
    (bad "Capacity must be an integer") (λ capacity,
  if capacity <=? 0 then bad "Capacity must be greater than zero" else
  creator_v ← py_get data "creator_id" JNone;
  try_except (py_int creator_v) value_or_type_error
    (bad "Creator ID must be an integer") (λ creator_id,
  date_v ← py_get data "date" (JStr "");
  date_str ← py_strip date_v;
  if bool_decide (date_str = "") then bad "Date is required" else
  try_except (strptime_date date_str) value_error
    (bad "Invalid date format, expected YYYY-MM-DD") (λ date_obj,
  start_v ← py_get data "start_time" (JStr "");
  start_time_str ← py_strip start_v;
  if bool_decide (start_time_str = "") then bad "Start time is required" else
  try_except (time_obj ← strptime_time start_time_str;
              Ok (combine date_obj time_obj)) value_error
    (bad "Invalid start_time format, expected HH:mm") (λ start_time,
  end_v ← py_get data "end_time" (JStr "");
  end_time_str ← py_strip end_v;
  if bool_decide (end_time_str = "") then bad "End time is required" else
  try_except (time_obj ← strptime_time end_time_str;
              Ok (combine date_obj time_obj)) value_error
    (bad "Invalid end_time format, expected HH:mm") (λ end_time,
  location_v ← py_get data "location" (JStr "");
  location ← py_strip location_v;
  if bool_decide (location = "") then bad "Location is required" else
  mode_v ← py_get data "mode" (JStr "");
  mode ← py_strip mode_v;
  if bool_decide (mode = "") then bad "Mode is required" else
  description_v ← py_get data "description" JNone;
  description ← (if json_truthy description_v
                 then PyStr <$> py_strip description_v
                 else Ok (falsy_value description_v));
  let new_room :=
    StudyRoom_init (PyStr name) (PyInt capacity) (PyInt creator_id) description
      (PyDate date_obj) (PyDateTime start_time) (PyDateTime end_time)
      (PyStr location) (PyStr mode) in
  '(row, db') ← commit_new f db new_room;
  resp ← jsonify (mkdict [("message", JStr "Study room created");
                          ("room_id", JVal (py_of_id (room_id row)))]) 201;
  Ok (resp, db')))))).

(** [create_study_room]: [data] is what [request.get_json()] gave. An
    exception rolls the transaction back. *)
Definition create_study_room (f : faults) (db : database) (data : json)
    : response * database :=
  match create_try f db data with
  | Ok r => r
  | Raise e =>
      ((mkdict [("message", JStr "Creation failed"); ("error", JStr (exn_str e))],
        500), db)
  end.

(** Lines 125-182: the body of the inner [try] of [get_study_room] *)
Definition get_try (f : faults) (db : database) (room : StudyRoom) : result response :=
  creator_data ← creator_data (room_creator f db room);
  date_str ← read_date_str (date room);
  start_time_str ← read_time_str (start_time room);
  end_time_str ← read_time_str (end_time room);
  let response_data := mkdict [
    ("room_id", JVal (py_of_id (room_id room)));
    ("id", JStr ("room-" +:+ py_str (py_of_id (room_id room))));
    ("name", JVal (if_else (name room) (PyStr "")));
    ("subject", JVal (if_else (description room) (PyStr "")));
    ("capacity", JVal (if_else (capacity room) (PyInt 0)));
    ("description", JVal (if_else (description room) (PyStr "")));
    ("participants", JList []);
    ("host", default (JStr "Anonymous") (creator_data !! "username"));
    ("creator_id", JVal (creator_id room));
    ("creator", JDict creator_data);
    ("date", JStr (str_or (default "" date_str) ""));
    ("start_time", JStr (str_or start_time_str "00:00"));
    ("end_time", JStr (str_or end_time_str "00:00"));
    ("location", JVal (if_else (location room) (PyStr "")));
    ("mode", JVal (if_else (mode room) (PyStr "")))] in
  jsonify response_data 200.

(** The placeholder of lines 186-203 and 207-224; [label] is ["Room "] or
    ["Error Room "] *)
Definition get_placeholder (label : string) (id : Z) (e : exn) : json :=
  mkdict [
    ("room_id", JInt id);
    ("id", JStr ("room-" +:+ pretty id));
    ("name", JStr (label +:+ pretty id));
    ("subject", JStr "");
    ("description", JStr "");
    ("capacity", JInt 0);
    ("participants", JList []);
    ("host", JStr "Unknown");
    ("creator_id", JInt 0);
    ("creator", mkdict [("id", JInt 0); ("username", JStr "Unknown"); ("email", JStr "")]);
    ("date", JStr "");
    ("start_time", JStr "00:00");
    ("end_time", JStr "00:00");
    ("location", JStr "");
    ("mode", JStr "");
    ("error", JStr ("Error: " +:+ exn_str e))].

Definition get_study_room (f : faults) (db : database) (id : Z) : response :=
  match query_get f db id with
  | Raise e => (get_placeholder "Error Room " id e, 200)
  | Ok None => (message "Room not found", 404)
  | Ok (Some room) =>
      match get_try f db room with
      | Ok resp => resp
      | Raise e => (get_placeholder "Room " id e, 200)
      end
  end.

Definition opt_str (s : option string) : json :=
  match s with
  | Some s => JStr s
  | None => JNone
  end.

(** Lines 238-292: the body of the per-room [try] of [get_all_study_rooms] *)
Definition all_try (f : faults) (db : database) (room : StudyRoom) : result json :=
  creator_data ← creator_data (room_creator f db room);
  date_str ← read_date_str (date room);
  start_time_str ← read_time_str (start_time room);
  end_time_str ← read_time_str (end_time room);
  Ok (mkdict [
    ("room_id", JVal (py_of_id (room_id room)));
    ("name", JVal (if_else (name room) (PyStr "")));
    ("description", JVal (if_else (description room) (PyStr "")));
    ("capacity", JVal (if_else (capacity room) (PyInt 0)));
    ("creator_id", JVal (creator_id room));
    ("creator", JDict creator_data);
    ("host", JDict creator_data);
    ("date", opt_str date_str);
    ("start_time", JStr start_time_str);
    ("end_time", JStr end_time_str);
    ("location", JVal (if_else (location room) (PyStr "")));
    ("mode", JVal (if_else (mode room) (PyStr "")))]).

(** Lines 296-310 *)
Definition all_placeholder (room : StudyRoom) (e : exn) : json :=
  mkdict [
    ("room_id", JVal (py_of_id (room_id room)));
    ("name", JStr ("Room " +:+ py_str (py_of_id (room_id room))));
    ("description", JStr "");
    ("capacity", JInt 0);
    ("creator_id", JInt 0);
    ("creator", mkdict [("id", JInt 0); ("username", JStr "Unknown"); ("email", JStr "")]);
    ("host", mkdict [("id", JInt 0); ("username", JStr "Unknown"); ("email", JStr "")]);
    ("date", JNone);
    ("start_time", JStr "00:00");
    ("end_time", JStr "00:00");
    ("location", JStr "");
    ("mode", JStr "");
    ("error", JStr ("Error: " +:+ exn_str e))].

(** One turn of the loop: the element appended for [room] *)
Definition room_data (f : faults) (db : database) (room : StudyRoom) : json :=
  match all_try f db room with
  | Ok d => d
  | Raise e => all_placeholder room e
  end.

Definition get_all_study_rooms (f : faults) (db : database) : response :=
  match (rooms ← query_all f db;
         jsonify (JList (room_data f db <$> rooms)) 200) with
  | Ok resp => resp
  | Raise _ => (JList [], 200)
  end.

(** *** Update

    The handler mutates the row object field by field; [Continue] carries
    the object on to the next field, [Return400] leaves the handler with the
    object as mutated so far. *)
Inductive flow :=
| Continue (room : StudyRoom)
| Return400 (room : StudyRoom) (msg : string).

Definition and_then (r : result flow) (k : StudyRoom → result flow) : result flow :=
  match r with
  | Ok (Continue room) => k room
  | other => other
  end.

(** [if key in data: room.<field> = data[key].strip()] *)
Definition update_stripped (key : string) (set : StudyRoom → pyval → StudyRoom)
    (data : json) (room : StudyRoom) : result flow :=
  b ← py_in key data;
  if b : bool then
    v ← py_getitem data key;
    s ← py_strip v;
    Ok (Continue (set room (PyStr s)))
  else Ok (Continue room).

(** Lines 333-337 *)
Definition update_capacity (data : json) (room : StudyRoom) : result flow :=
  b ← py_in "capacity" data;
  if b : bool then
    try_except (v ← py_getitem data "capacity"; py_int v) value_or_type_error
      (Ok (Return400 room "Capacity must be an integer"))
      (λ n, Ok (Continue (set_capacity room (PyInt n))))
  else Ok (Continue room).

(** Lines 338-343 *)
Definition update_date (data : json) (room : StudyRoom) : result flow :=
  b ← py_in "date" data;
  if b : bool then
    v ← py_getitem data "date";
    date_str ← py_strip v;
    try_except (strptime_date date_str) value_error
      (Ok (Return400 room "Invalid date format, expected YYYY-MM-DD"))
      (λ d, Ok (Continue (set_date room (PyDate d))))
  else Ok (Continue room).

(** Lines 344-350 and 351-357 *)
Definition update_time (key : string) (set : StudyRoom → pyval → StudyRoom)
    (msg : string) (data : json) (room : StudyRoom) : result flow :=
  b ← py_in key data;
  if b : bool then
    v ← py_getitem data key;
    t_str ← py_strip v;
    try_except (time_obj ← strptime_time t_str; py_combine (date room) time_obj)
      value_error (Ok (Return400 room msg))
      (λ dt, Ok (Continue (set room (PyDateTime dt))))
  else Ok (Continue room).

(** Lines 329-361 *)
Definition update_fields (data : json) (room : StudyRoom) : result flow :=
  and_then (update_stripped "name" set_name data room) (λ room,
  and_then (update_stripped "description" set_description data room) (λ room,
  and_then (update_capacity data room) (λ room,
  and_then (update_date data room) (λ room,
  and_then (update_time "start_time" set_start_time
              "Invalid start_time format, expected HH:mm" data room) (λ room,
  and_then (update_time "end_time" set_end_time
              "Invalid end_time format, expected HH:mm" data room) (λ room,
  and_then (update_stripped "location" set_location data room) (λ room,
  update_stripped "mode" set_mode data room))))))).

Definition update_failed (e : exn) : response :=
  (mkdict [("message", JStr "Update failed"); ("error", JStr (exn_str e))], 500).

(** [update_study_room]: the response, the row object as the handler leaves
    it in memory (none when no row was found; a rollback restores it), and
    the database. *)
Definition update_study_room (f : faults) (db : database) (id : Z) (data : json)
    : response * option StudyRoom * database :=
  match query_get f db id with
  | Raise e => (update_failed e, None, db)
  | Ok None => ((message "Room not found", 404), None, db)
  | Ok (Some room) =>
      let data := if json_truthy data then data else JDict ∅ in
      match update_fields data room with
      | Raise e => (update_failed e, Some room, db)
      | Ok (Return400 room' msg) => ((message msg, 400), Some room', db)
      | Ok (Continue room') =>
          match commit_fault f with
          | Some e => (update_failed e, Some room, db)
          | None =>
              let db' := {| rooms := <[id := room']> (rooms db);
                            next_id := next_id db; users := users db;
                            creator_rel := creator_rel db |} in
              match jsonify (to_dict f db' room') 200 with
              | Ok resp => (resp, Some room', db')
              | Raise e => (update_failed e, Some room', db')
              end
          end
      end
  end.

(** [delete_study_room]: a hard delete of the row found *)
Definition delete_failed (e : exn) : response :=
  (mkdict [("message", JStr "Delete failed"); ("error", JStr (exn_str e))], 500).

Definition delete_study_room (f : faults) (db : database) (id : Z)
    : response * database :=
  match query_get f db id with
  | Raise e => (delete_failed e, db)
  | Ok None => ((message "Room not found", 404), db)
  | Ok (Some room) =>
      match commit_fault f with
      | Some e => (delete_failed e, db)
      | None =>
          ((message "Room deleted successfully", 200),
           {| rooms := delete id (rooms db); next_id := next_id db;
              users := users db; creator_rel := creator_rel db |})
      end
  end.

(** [StudyRoom.__repr__] *)
Definition StudyRoom_repr (self : StudyRoom) : string :=
  "<StudyRoom " +:+ py_str (name self) +:+ ">".

(** What create binds to [description] (lines 89-91) *)
Definition payload_description (data : json) : result pyval :=
  v ← py_get data "description" JNone;
  if json_truthy v then PyStr <$> py_strip v else Ok (falsy_value v).

(** What create reads from the payload as a stripped string (lines 28, 75, 80) *)
Definition payload_stripped (key : string) (data : json) : result string :=
  v ← py_get data key (JStr "");
  py_strip v.

(** What create reads from the payload as an integer (lines 33, 41) *)
Definition payload_int (key : string) (data : json) : result Z :=
  v ← py_get data key JNone;
  py_int v.

(** The row create builds from what it read, and the database after the
    insert (lines 94-106) *)
Definition created_row (id : Z) (n : string) (k c : Z) (desc : pyval) (d : py_date)
    (ts te : py_time) (l mo : string) : StudyRoom :=
  {| room_id := Some id; name := PyStr n; description := desc;
     capacity := PyInt k; creator_id := PyInt c; date := PyDate d;
     start_time := PyDateTime (combine d ts); end_time := PyDateTime (combine d te);
     location := PyStr l; mode := PyStr mo |}.

Definition with_rooms (db : database) (rs : gmap Z StudyRoom) (next : Z) : database :=
  {| rooms := rs; next_id := next; users := users db; creator_rel := creator_rel db |}.

(** A setter of the update handler that leaves [room_id] and [creator_id] alone *)
Definition keeps_keys (set : StudyRoom → pyval → StudyRoom) : Prop :=
  ∀ r v, room_id (set r v) = room_id r ∧ creator_id (set r v) = creator_id r.

(** ** Observations on responses, and sample data *)

Definition status (r : response) : Z := r.2.

(** [body[key]] when the body is a dict holding [key] *)
Definition field (body : json) (key : string) : option json :=
  match body with
  | JDict m => m !! key
  | _ => None
  end.

(** What create reads from the payload as the date and as a time of day
    (lines 46-52, 55-62, 65-72) *)
Definition payload_date (data : json) : result py_date :=
  v ← py_get data "date" (JStr "");
  s ← py_strip v;
  strptime_date s.

Definition payload_time (key : string) (data : json) : result py_time :=
  v ← py_get data key (JStr "");
  s ← py_strip v;
  strptime_time s.

(** The capacities of claim C6: 0 or a negative integer, or a string that
    [int] rejects *)
Definition bad_capacity (c : json) : bool :=
  match c with
  | JVal (PyInt z) => z <=? 0
  | JVal (PyStr s) => match int_of_str s with Ok _ => false | Raise _ => true end
  | _ => false
  end.

(** The user a row's [creator] attribute holds, if any *)
Definition attached_creator (f : faults) (db : database) (room : StudyRoom) : option User :=
  match room_creator f db room with
  | AttrValue v => v
  | _ => None
  end.

Definition host_name (u : option User) : string :=
  match u with
  | Some u => username u
  | None => "Anonymous"
  end.

Definition host_object (u : option User) : gmap string json :=
  match u with
  | Some u => creator_dict u
  | None => ∅
  end.




(** The date of a [date] or of a [datetime] *)
Definition date_part (v : pyval) : option py_date :=
  match v with
  | PyDate d => Some d
  | PyDateTime dt => Some (dt_date dt)
  | _ => None
  end.

(** What an update that got past a field has done to the row object
    [room], giving [room']: a field absent from the payload [m] is as it
    was, a field present holds the value read from the payload. *)
Definition applied_stripped (m : gmap string json) (key : string)
    (get : StudyRoom → pyval) (room room' : StudyRoom) : Prop :=
  match m !! key with
  | Some v => ∃ s, v = JStr s ∧ get room' = PyStr (str_strip s)
  | None => get room' = get room
  end.

Definition applied_capacity (m : gmap string json) (room room' : StudyRoom) : Prop :=
  match m !! "capacity" with
  | Some v => ∃ k, py_int v = Ok k ∧ capacity room' = PyInt k
  | None => capacity room' = capacity room
  end.

Definition applied_date (m : gmap string json) (room room' : StudyRoom) : Prop :=
  match m !! "date" with
  | Some v => ∃ s d, v = JStr s ∧ strptime_date (str_strip s) = Ok d ∧ date room' = PyDate d
  | None => date room' = date room
  end.

Definition applied_time (m : gmap string json) (key : string)
    (get : StudyRoom → pyval) (room room' : StudyRoom) : Prop :=
  match m !! key with
  | Some v => ∃ s t dt, v = JStr s ∧ strptime_time (str_strip s) = Ok t ∧
                        get room' = PyDateTime dt ∧ dt_time dt = t ∧
                        date_part (date room') = Some (dt_date dt)
  | None => get room' = get room
  end.

(** The row object [room'] of an update of [room] that has processed the
    first [stage] fields, in the handler's order (name, description,
    capacity, date, start_time, end_time, location, mode): those fields are
    applied, the others are as they were, and so are the keys. *)
Definition fields_after (stage : nat) (m : gmap string json)
    (room room' : StudyRoom) : Prop :=
  room_id room' = room_id room ∧ creator_id room' = creator_id room ∧
  (if Nat.leb 1 stage then applied_stripped m "name" name room room'
   else name room' = name room) ∧
  (if Nat.leb 2 stage then applied_stripped m "description" description room room'
   else description room' = description room) ∧
  (if Nat.leb 3 stage then applied_capacity m room room'
   else capacity room' = capacity room) ∧
  (if Nat.leb 4 stage then applied_date m room room'
   else date room' = date room) ∧
  (if Nat.leb 5 stage then applied_time m "start_time" start_time room room'
   else start_time room' = start_time room) ∧
  (if Nat.leb 6 stage then applied_time m "end_time" end_time room room'
   else end_time room' = end_time room) ∧
  (if Nat.leb 7 stage then applied_stripped m "location" location room room'
   else location room' = location room) ∧
  (if Nat.leb 8 stage then applied_stripped m "mode" mode room room'
   else mode room' = mode room).

(** Why an update stops with a 400, and after how many fields *)
Definition stopped_at (m : gmap string json) (stage : nat) (msg : string) : Prop :=
  (stage = 2%nat ∧ msg = "Capacity must be an integer" ∧
   ∃ v e, m !! "capacity" = Some v ∧ py_int v = Raise e) ∨
  (stage = 3%nat ∧ msg = "Invalid date format, expected YYYY-MM-DD" ∧
   ∃ s e, m !! "date" = Some (JStr s) ∧ strptime_date (str_strip s) = Raise e) ∨
  (stage = 4%nat ∧ msg = "Invalid start_time format, expected HH:mm" ∧
   ∃ s, m !! "start_time" = Some (JStr s)) ∨
  (stage = 5%nat ∧ msg = "Invalid end_time format, expected HH:mm" ∧
   ∃ s, m !! "end_time" = Some (JStr s)).

(** [c * n], the string of [n] times the character [c] *)
Fixpoint str_repeat (n : nat) (c : ascii) : string :=
  match n with
  | O => EmptyString
  | S n' => String c (str_repeat n' c)
  end.

Definition empty_db : database :=
  {| rooms := ∅; next_id := 1; users := ∅; creator_rel := true |}.

(** The payload of the round trip of the spec, with a capacity to choose *)
Definition sample_payload (name capacity : json) : gmap string json :=
  list_to_map [("name", name); ("capacity", capacity); ("creator_id", JInt 7);
               ("date", JStr "2024-06-01"); ("start_time", JStr "09:00");
               ("end_time", JStr "10:30"); ("location", JStr "B1");
               ("mode", JStr "online")].

Definition sample_room : StudyRoom :=
  {| room_id := Some 1; name := PyStr "Lab"; description := PyNone;
     capacity := PyInt 4; creator_id := PyInt 7;
     date := PyDate (Date 2024 6 1);
     start_time := PyDateTime (DateTime (Date 2024 6 1) (Time 9 0 0 0));
     end_time := PyDateTime (DateTime (Date 2024 6 1) (Time 10 30 0 0));
     location := PyStr "B1"; mode := PyStr "online" |}.

(** A row whose stored [start_time] is a text that is no datetime *)
Definition garbled_room : StudyRoom := set_start_time sample_room (PyStr "garbage").

Definition garbled_db : database :=
  {| rooms := {[ 1 := garbled_room ]}; next_id := 2; users := ∅; creator_rel := false |}.

(** A database whose row has no [end_time] (the column is nullable) *)
Definition open_ended_db : database :=
  {| rooms := {[ 1 := set_end_time sample_room PyNone ]}; next_id := 2;
     users := ∅; creator_rel := false |}.

Definition sample_db : database :=
  {| rooms := {[ 1 := sample_room ]}; next_id := 2;
     users := {[ 7 := {| user_id := 7; username := "alice"; email := "a@x.org" |} ]};
     creator_rel := true |}.

(** ** Basic facts about the primitives *)

Lemma json_truthy_dict (m : gmap string json) k v :
  m !! k = Some v → json_truthy (JDict m) = true.
Proof.
  intros Hk. simpl. destruct (map_to_list m) as [|p l] eqn:E; [|done].
  apply map_to_list_empty_iff in E. subst m. by rewrite lookup_empty in Hk.
Qed.

Lemma int_of_digits_raise s e : int_of_digits s = Raise e → exn_kind e = ValueError.
Proof.
  unfold int_of_digits. intros H. repeat case_match; by simplify_eq.
Qed.

Lemma int_of_str_raise s e : int_of_str s = Raise e → exn_kind e = ValueError.
Proof.
  unfold int_of_str. intros H.
  destruct (str_strip s) as [|c s']; [by simplify_eq|].
  destruct (bool_decide (c = "-"%char)).
  - destruct (int_of_digits s') eqn:E; [done|]. simpl in H. simplify_eq.
    by apply int_of_digits_raise in E.
  - destruct (bool_decide (c = "+"%char)); by apply int_of_digits_raise in H.
Qed.

Lemma all_in_missing (m : gmap string json) k fields :
  k ∈ fields → m !! k = None → all_in fields (JDict m) = Ok false.
Proof.
  intros Hin Hk. induction fields as [|k' ks IH]; [by apply elem_of_nil in Hin|].
  simpl. apply elem_of_cons in Hin as [<-|Hin].
  - rewrite Hk. rewrite bool_decide_eq_false_2; [done|]. by intros [? ?].
  - destruct (bool_decide _); simpl; [by apply IH|done].
Qed.

Lemma all_in_present (m : gmap string json) fields :
  all_in fields (JDict m) = Ok true → ∀ k, k ∈ fields → is_Some (m !! k).
Proof.
  induction fields as [|k' ks IH]; intros H k Hin; [by apply elem_of_nil in Hin|].
  simpl in H. destruct (bool_decide (is_Some (m !! k'))) eqn:E; simpl in H; [|done].
  apply bool_decide_eq_true in E.
  apply elem_of_cons in Hin as [->|Hin]; [done|by apply IH].
Qed.

Lemma all_in_dict (m : gmap string json) fields :
  ∃ b, all_in fields (JDict m) = Ok b.
Proof.
  induction fields as [|k ks [b IH]]; simpl; [by eexists|].
  destruct (bool_decide _); simpl; eauto.
Qed.

Arguments all_in : simpl never.

(** ** [int] *)

(** [int] of a float truncates towards zero, raises an OverflowError on an
    infinity and a ValueError on a NaN; of a string of more than 4300 digits
    it raises a ValueError. *)
Example py_int_floats_and_long_strings :
  py_int (JVal (PyFloat (FloatFinite 9 (-1)) "4.5")) = Ok 4 ∧
  py_int (JVal (PyFloat (FloatFinite (-9) (-1)) "-4.5")) = Ok (-4) ∧
  exn_kind <$> (match py_int (JVal (PyFloat (FloatInf false) "inf")) with
                | Raise e => Some e | Ok _ => None end) = Some OverflowError ∧
  exn_kind <$> (match py_int (JVal (PyFloat FloatNaN "nan")) with
                | Raise e => Some e | Ok _ => None end) = Some ValueError ∧
  int_of_str "0042" = Ok 42 ∧
  exn_kind <$> (match int_of_str (str_repeat 4301 "1") with
                | Raise e => Some e | Ok _ => None end) = Some ValueError.
Proof. repeat split; vm_compute; reflexivity. Qed.

(** ** Create: the validation pipeline *)

(** C7. A create payload without the [end_time] key gets 400 "Missing
    required fields" and the database is left as it was, although the
    [end_time] column is nullable. *)
Theorem create_missing_end_time f db (m : gmap string json) :
  m !! "end_time" = None →
  create_study_room f db (JDict m) = ((message "Missing required fields", 400), db).
Proof.
  intros Hk. unfold create_study_room, create_try.
  destruct (json_truthy (JDict m)); simpl; [|done].
  rewrite (all_in_missing m "end_time"); [done| |done].
  unfold required_fields. set_solver.
Qed.

Lemma create_missing_end_time_witness :
  create_study_room no_faults empty_db
    (JDict (delete "end_time" (sample_payload (JStr "Lab") (JInt 4))))
  = ((message "Missing required fields", 400), empty_db).
Proof.
  apply (create_missing_end_time no_faults empty_db
           (delete "end_time" (sample_payload (JStr "Lab") (JInt 4)))).
  vm_compute. reflexivity.
Defined.

Lemma create_bad_capacity_outcome f db (m : gmap string json) c :
  m !! "capacity" = Some c → bad_capacity c = true →
  ∃ msg, create_try f db (JDict m) = Ok ((message msg, 400), db)
  ∨ (∃ e v, create_try f db (JDict m) = Raise e ∧ m !! "name" = Some v ∧ ∀ s, v ≠ JStr s).
Proof.
  intros Hc Hbad. unfold create_try.
  destruct (json_truthy (JDict m)); simpl; [|by eexists; left].
  destruct (all_in_dict m required_fields) as [b Hb]. rewrite Hb. simpl.
  destruct b; simpl; [|by eexists; left].
  destruct (all_in_present m _ Hb "name") as [nv Hn]; [unfold required_fields; set_solver|].
  rewrite Hn. simpl.
  destruct nv as [[| | |s| | | |]| |]; simpl;
    try (exists ""; right; eexists _, _; split; [done|]; split; [done|]; intros ?; done).
  destruct (bool_decide (str_strip s = "")); [by eexists; left|].
  rewrite Hc. simpl. unfold try_except.
  destruct c as [[]| |]; simpl in *; try done.
  - rewrite Hbad. by eexists; left.
  - destruct (int_of_str s0) eqn:E; [done|].
    apply int_of_str_raise in E. unfold value_or_type_error. rewrite E.
    by eexists; left.
Qed.

(** X16. A create payload whose capacity is 0, a negative integer or a
    string that is not an integer, and whose [name], when present, is a
    string, is answered 400 and the database is left as it was. *)
Theorem create_bad_capacity f db (m : gmap string json) c :
  m !! "capacity" = Some c → bad_capacity c = true →
  (∀ v, m !! "name" = Some v → ∃ s, v = JStr s) →
  ∃ msg, create_study_room f db (JDict m) = ((message msg, 400), db).
Proof.
  intros Hc Hbad Hname. unfold create_study_room.
  destruct (create_bad_capacity_outcome f db m c Hc Hbad) as [msg [->|(e & v & _ & Hv & Hs)]].
  - by exists msg.
  - destruct (Hname v Hv) as [s ->]. by destruct (Hs s).
Qed.

Lemma create_bad_capacity_witness :
  ∃ msg, create_study_room no_faults empty_db
           (JDict (sample_payload (JStr "Lab") (JStr "abc")))
         = ((message msg, 400), empty_db).
Proof.
  apply (create_bad_capacity no_faults empty_db
           (sample_payload (JStr "Lab") (JStr "abc")) (JStr "abc")).
  - vm_compute. reflexivity.
  - vm_compute. reflexivity.
  - intros v Hv. vm_compute in Hv. injection Hv as <-. by eexists.
Defined.

(** C6. The payload of the round trip with a capacity of 0 and the number 5
    as its [name]: stripping the name raises an AttributeError before the
    capacity is looked at, and the answer is 500 "Creation failed" where the
    claim says 400; nothing is persisted.  With a name that is a string the
    same capacity is answered 400, and a capacity of the wrong type is
    caught by the handler of the field and answered 400 as well. *)
Theorem create_bad_capacity_name_not_a_string :
  bad_capacity (JInt 0) = true ∧
  status (create_study_room no_faults empty_db
            (JDict (sample_payload (JInt 5) (JInt 0)))).1 = 500 ∧
  field (create_study_room no_faults empty_db
           (JDict (sample_payload (JInt 5) (JInt 0)))).1.1 "message"
    = Some (JStr "Creation failed") ∧
  field (create_study_room no_faults empty_db
           (JDict (sample_payload (JInt 5) (JInt 0)))).1.1 "error"
    = Some (JStr "'int' object has no attribute 'strip'") ∧
  (create_study_room no_faults empty_db
     (JDict (sample_payload (JInt 5) (JInt 0)))).2 = empty_db ∧
  create_study_room no_faults empty_db (JDict (sample_payload (JStr "Lab") (JInt 0)))
    = ((message "Capacity must be greater than zero", 400), empty_db) ∧
  create_study_room no_faults empty_db (JDict (sample_payload (JStr "Lab") (JList [])))
    = ((message "Capacity must be an integer", 400), empty_db).
Proof. vm_compute. repeat split; reflexivity. Qed.

(** ** Update: field-by-field mutation *)

Lemma py_in_dict (m : gmap string json) k v :
  m !! k = Some v → py_in k (JDict m) = Ok true.
Proof. intros H. simpl. rewrite H. by rewrite bool_decide_eq_true_2. Qed.




(** C4. The update handler stores whatever integer it is given: on a row of
    capacity 4, the payload [{"capacity": 0}] is answered 200 and the row is
    persisted with capacity 0 (and likewise with ["-5"]), where create
    answers 400 "Capacity must be greater than zero". *)
Theorem update_stores_nonpositive_capacity :
  (let '(resp, _, db') :=
     update_study_room no_faults sample_db 1 (mkdict [("capacity", JInt 0)]) in
   status resp = 200 ∧ capacity <$> rooms db' !! 1 = Some (PyInt 0)) ∧
  (let '(resp, _, db') :=
     update_study_room no_faults sample_db 1 (mkdict [("capacity", JStr "-5")]) in
   status resp = 200 ∧ capacity <$> rooms db' !! 1 = Some (PyInt (-5))) ∧
  status (create_study_room no_faults sample_db
            (JDict (sample_payload (JStr "Lab") (JInt 0)))).1 = 400.
Proof. vm_compute. auto. Qed.

(** ** Printing and parsing dates and times *)

Lemma forallb_seqZ (P : Z → bool) lo n k :
  forallb P (seqZ lo n) = true → lo ≤ k < lo + n → P k = true.
Proof.
  intros H Hk. rewrite forallb_forall in H. apply H.
  apply list_elem_of_In, elem_of_seqZ. lia.
Qed.

Lemma digit_cases k : 0 ≤ k ≤ 9 →
  k = 0 ∨ k = 1 ∨ k = 2 ∨ k = 3 ∨ k = 4 ∨ k = 5 ∨ k = 6 ∨ k = 7 ∨ k = 8 ∨ k = 9.
Proof. lia. Qed.

Lemma digit_char_props k : 0 ≤ k ≤ 9 →
  is_digit (digit_char k) = true ∧ digit_val (digit_char k) = k ∧
  py_isspace (digit_char k) = false ∧
  bool_decide (digit_char k = "_"%char) = false ∧
  bool_decide (digit_char k = "-"%char) = false ∧
  bool_decide (digit_char k = "+"%char) = false.
Proof.
  intros Hk. destruct (digit_cases k Hk) as [->|[->|[->|[->|[->|[->|[->|[->|[->| ->]]]]]]]]];
    vm_compute; repeat split; reflexivity.
Qed.

Lemma lstrip_no_space s : no_space s = true → lstrip s = s.
Proof.
  destruct s as [|c s]; [done|]. simpl. destruct (py_isspace c); [done|done].
Qed.

Lemma rstrip_no_space s : no_space s = true → rstrip s = s.
Proof.
  induction s as [|c s IH]; [done|]. simpl.
  destruct (py_isspace c) eqn:E; simpl; [done|]. intros H.
  rewrite (IH H). by destruct s.
Qed.

Lemma str_strip_no_space s : no_space s = true → str_strip s = s.
Proof.
  intros H. unfold str_strip. rewrite (lstrip_no_space s H). by apply rstrip_no_space.
Qed.

Lemma append_cons c s r : String c s +:+ r = String c (s +:+ r).
Proof. reflexivity. Qed.

Lemma append_nil r : "" +:+ r = r.
Proof. reflexivity. Qed.

Lemma no_space_app s r : no_space (s +:+ r) = no_space s && no_space r.
Proof.
  induction s as [|c s IH]; [done|]. rewrite append_cons. simpl. rewrite IH.
  by rewrite andb_assoc.
Qed.

Lemma no_space_pad2 n : 0 ≤ n ≤ 99 → no_space (pad2 n) = true.
Proof.
  intros Hn. unfold pad2. simpl.
  destruct (digit_char_props (n / 10)) as (_ & _ & -> & _); [Z.to_euclidean_division_equations; lia|].
  destruct (digit_char_props (n mod 10)) as (_ & _ & -> & _); [Z.to_euclidean_division_equations; lia|].
  done.
Qed.

Lemma no_space_pad4 n : 0 ≤ n ≤ 9999 → no_space (pad4 n) = true.
Proof.
  intros Hn. unfold pad4. cbn [no_space].
  destruct (digit_char_props (n / 1000)) as (_ & _ & -> & _); [Z.to_euclidean_division_equations; lia|].
  destruct (digit_char_props (n / 100 mod 10)) as (_ & _ & -> & _); [Z.to_euclidean_division_equations; lia|].
  rewrite no_space_pad2; [done|]. Z.to_euclidean_division_equations; lia.
Qed.

Lemma int_digits_digit k s acc seen : 0 ≤ k ≤ 9 →
  int_digits (String (digit_char k) s) acc seen = int_digits s (10 * acc + k) true.
Proof.
  intros Hk. destruct (digit_char_props k Hk) as (Hd & Hv & _ & Hu & _).
  simpl. by rewrite Hu, Hd, Hv.
Qed.

Lemma digit_count_length s : digit_count s ≤ Z.of_nat (String.length s).
Proof.
  induction s as [|c s IH]; [done|]. cbn [digit_count String.length].
  destruct (is_digit c); lia.
Qed.

Lemma int_of_str_pad4 n : 0 ≤ n ≤ 9999 → int_of_str (pad4 n) = Ok n.
Proof.
  intros Hn. unfold int_of_str. rewrite (str_strip_no_space _ (no_space_pad4 n Hn)).
  unfold pad4 at 1.
  assert (0 ≤ n / 1000 ≤ 9) as H1 by (Z.to_euclidean_division_equations; lia).
  assert (0 ≤ n / 100 mod 10 ≤ 9) as H2 by (Z.to_euclidean_division_equations; lia).
  assert (0 ≤ n mod 100 / 10 ≤ 9) as H3 by (Z.to_euclidean_division_equations; lia).
  assert (0 ≤ n mod 100 mod 10 ≤ 9) as H4 by (Z.to_euclidean_division_equations; lia).
  destruct (digit_char_props _ H1) as (_ & _ & _ & _ & -> & ->).
  unfold int_of_digits.
  pose proof (digit_count_length
                (String (digit_char (n / 1000))
                   (String (digit_char (n / 100 mod 10)) (pad2 (n mod 100))))) as Hl.
  change (Z.of_nat (String.length _)) with 4 in Hl.
  rewrite (proj2 (Z.ltb_ge _ _)) by (unfold int_max_str_digits; lia). clear Hl.
  unfold pad2.
  rewrite !int_digits_digit by done. simpl. f_equal.
  Z.to_euclidean_division_equations; lia.
Qed.

Lemma int_of_str_pad2 n : 0 ≤ n ≤ 99 → int_of_str (pad2 n) = Ok n.
Proof.
  intros Hn.
  assert (forallb pad2_check (seqZ 0 100) = true) as H by (vm_compute; reflexivity).
  pose proof (forallb_seqZ _ _ _ n H) as Hc. unfold pad2_check in Hc.
  destruct (int_of_str (pad2 n)); [|by discriminate Hc; lia].
  f_equal. apply Z.eqb_eq, Hc. lia.
Qed.

Lemma strptime_time_pad h m : 0 ≤ h ≤ 23 → 0 ≤ m ≤ 59 →
  strptime_time (pad2 h +:+ ":" +:+ pad2 m) = Ok (Time h m 0 0) ∧
  str_strip (pad2 h +:+ ":" +:+ pad2 m) = pad2 h +:+ ":" +:+ pad2 m.
Proof.
  intros Hh Hm.
  assert (forallb (λ h, forallb (hm_check h) (seqZ 0 60)) (seqZ 0 24) = true) as H
    by (vm_compute; reflexivity).
  pose proof (forallb_seqZ _ _ _ h H ltac:(lia)) as H1. cbv beta in H1.
  pose proof (forallb_seqZ _ _ _ m H1 ltac:(lia)) as H2. clear H H1.
  unfold hm_check in H2.
  destruct (strptime_time _) as [t|e]; [|discriminate H2].
  apply andb_true_iff in H2 as [Ha Hb].
  apply bool_decide_eq_true in Ha, Hb. split; [by f_equal|exact Hb].
Qed.

Lemma match_format_year a b c d r :
  is_digit a = true → is_digit b = true → is_digit c = true → is_digit d = true →
  match_format fmt_Ymd (String a (String b (String c (String d r))))
  = (λ '(gs, rest), (String a (String b (String c (String d ""))) :: gs, rest))
      <$> match_format fmt_md r.
Proof.
  intros Ha Hb Hc Hd. unfold fmt_Ymd, re_Y, fmt_md.
  cbn [match_format flat_map match_seq]. rewrite Ha, Hb, Hc, Hd.
  by rewrite app_nil_r.
Qed.

Lemma match_format_md m d : 1 ≤ m ≤ 12 → 1 ≤ d ≤ 31 →
  ∃ tl, match_format fmt_md ("-" +:+ pad2 m +:+ "-" +:+ pad2 d)
        = ([pad2 m; pad2 d], "") :: tl.
Proof.
  intros Hm Hd.
  assert (forallb (λ m, forallb (md_check m) (seqZ 1 31)) (seqZ 1 12) = true) as H
    by (vm_compute; reflexivity).
  pose proof (forallb_seqZ _ _ _ m H ltac:(lia)) as H1. cbv beta in H1.
  pose proof (forallb_seqZ _ _ _ d H1 ltac:(lia)) as H2. clear H H1.
  unfold md_check in H2.
  destruct (match_format fmt_md _) as [|[gs [|]] tl]; try discriminate H2.
  apply bool_decide_eq_true in H2. subst gs. by eexists.
Qed.

Lemma valid_date_bounds d : valid_date d = true →
  1 ≤ year d ≤ 9999 ∧ 1 ≤ month d ≤ 12 ∧ 1 ≤ day d ≤ 31.
Proof.
  unfold valid_date, days_in_month. intros H.
  repeat (apply andb_true_iff in H as [H ?]).
  repeat case_match; lia.
Qed.

Lemma date_isoformat_no_space d : valid_date d = true → no_space (date_isoformat d) = true.
Proof.
  intros H. apply valid_date_bounds in H as (Hy & Hm & Hd).
  unfold date_isoformat. rewrite !no_space_app.
  rewrite no_space_pad4, !no_space_pad2 by lia. done.
Qed.

(** A valid date is read back from its ISO form *)
Lemma strptime_date_isoformat d : valid_date d = true →
  strptime_date (date_isoformat d) = Ok d.
Proof.
  intros Hv. pose proof (valid_date_bounds d Hv) as (Hy & Hm & Hd).
  destruct d as [y m dd]. simpl in *|-.
  unfold strptime_date, strptime_groups, date_isoformat. cbn [year month day].
  change (pad4 y +:+ "-" +:+ pad2 m +:+ "-" +:+ pad2 dd)
    with (String (digit_char (y / 1000)) (String (digit_char (y / 100 mod 10))
            (String (digit_char (y mod 100 / 10))
               (String (digit_char (y mod 100 mod 10))
                  ("-" +:+ pad2 m +:+ "-" +:+ pad2 dd))))).
  assert (0 ≤ y / 1000 ≤ 9) as H1 by (Z.to_euclidean_division_equations; lia).
  assert (0 ≤ y / 100 mod 10 ≤ 9) as H2 by (Z.to_euclidean_division_equations; lia).
  assert (0 ≤ y mod 100 / 10 ≤ 9) as H3 by (Z.to_euclidean_division_equations; lia).
  assert (0 ≤ y mod 100 mod 10 ≤ 9) as H4 by (Z.to_euclidean_division_equations; lia).
  rewrite match_format_year by (by apply digit_char_props).
  destruct (match_format_md m dd Hm Hd) as [tl ->].
  cbn [fmap list_fmap]. simpl.
  change (String (digit_char (y / 1000)) (String (digit_char (y / 100 mod 10))
            (String (digit_char (y mod 100 / 10))
               (String (digit_char (y mod 100 mod 10)) ""))))
    with (pad4 y).
  rewrite int_of_str_pad4 by lia. simpl.
  rewrite !int_of_str_pad2 by lia. simpl. by rewrite Hv.
Qed.

(** ** Create: what a successful request stores *)

Lemma bind_ok {A B} (r : result A) (k : A → result B) b :
  r ≫= k = Ok b → ∃ a, r = Ok a ∧ k a = Ok b.
Proof. destruct r as [a|e]; [by exists a|done]. Qed.

Lemma try_except_ok {A B} (r : result A) c (h : result B) k b :
  try_except r c h k = Ok b →
  (∃ a, r = Ok a ∧ k a = Ok b) ∨ (∃ e, r = Raise e ∧ c e = true ∧ h = Ok b).
Proof.
  destruct r as [a|e]; simpl; [by left; exists a|].
  destruct (c e) eqn:E; [|done]. right. by exists e.
Qed.

Ltac inv_step H :=
  lazymatch type of H with
  | (if ?c then _ else _) = Ok _ => destruct c eqn:?
  | mbind _ _ = Ok _ =>
      let a := fresh "v" in let E := fresh "E" in
      apply bind_ok in H as (a & E & H)
  | try_except _ _ _ _ = Ok _ =>
      let a := fresh "v" in let E := fresh "E" in let E' := fresh "E" in
      apply try_except_ok in H as [(a & E & H)|(a & E & E' & H)]
  end; cbv beta in H.

Lemma description_value v a :
  (if json_truthy v then PyStr <$> py_strip v else Ok (falsy_value v)) = Ok a →
  py_truthy a = false ∨ ∃ s, a = PyStr s.
Proof.
  destruct (json_truthy v) eqn:E.
  - destruct (py_strip v) as [s|e]; simpl; intros H; simplify_eq. eauto.
  - intros H. simplify_eq. left. by destruct v.
Qed.

Lemma jsonify_created z :
  jsonify (mkdict [("message", JStr "Study room created");
                   ("room_id", JVal (py_of_id (Some z)))]) 201
  = Ok (mkdict [("message", JStr "Study room created"); ("room_id", JInt z)], 201).
Proof. vm_compute. reflexivity. Qed.

Lemma create_try_created f db data resp db' :
  create_try f db data = Ok (resp, db') →
  status resp = 201 →
  ∃ d ts te row,
    payload_date data = Ok d ∧
    payload_time "start_time" data = Ok ts ∧
    payload_time "end_time" data = Ok te ∧
    date row = PyDate d ∧
    start_time row = PyDateTime (combine d ts) ∧
    end_time row = PyDateTime (combine d te) ∧
    room_id row = Some (next_id db) ∧
    (∃ n, name row = PyStr n ∧ n ≠ "") ∧
    (∃ k, capacity row = PyInt k ∧ 0 < k) ∧
    (∃ c, creator_id row = PyInt c) ∧
    (py_truthy (description row) = false ∨ ∃ s, description row = PyStr s) ∧
    (∃ l, location row = PyStr l ∧ l ≠ "") ∧
    (∃ mo, mode row = PyStr mo ∧ mo ≠ "") ∧
    rooms db' = <[next_id db := row]> (rooms db) ∧
    users db' = users db ∧ creator_rel db' = creator_rel db ∧
    commit_fault f = None ∧
    resp = (mkdict [("message", JStr "Study room created");
                    ("room_id", JInt (next_id db))], 201).
Proof.
  intros H H201. unfold create_try in H. cbv zeta in H.
  assert (∀ (msg : string) (r : response) (d : database),
            Ok ((message msg, 400), db) = Ok (r, d) → status r = 201 → False) as Hbad.
  { intros msg r d Heq Hs. injection Heq as <- <-. discriminate Hs. }
  repeat (inv_step H; try (by (exfalso; eapply Hbad; eauto))).
  destruct v21 as [row db1]. unfold commit_new in E21.
  destruct (commit_fault f) eqn:Hcf; [discriminate E21|].
  injection E21 as <- <-.
  cbn [set_room_id room_id] in H. rewrite jsonify_created in H.
  cbn in H. injection H as <- <-.
  apply description_value in E20.
  apply bool_decide_eq_false in Heqb1, Heqb3, Heqb4, Heqb5, Heqb6, Heqb7.
  apply Z.leb_gt in Heqb2.
  apply bind_ok in E11 as (ts & Ets & E11). injection E11 as <-.
  apply bind_ok in E14 as (te & Ete & E14). injection E14 as <-.
  exists v8, ts, te. eexists.
  unfold payload_date, payload_time.
  rewrite E6, E9, E12. cbn [mbind result_bind]. rewrite E7, E10, E13.
  cbn [mbind result_bind].
  repeat split; cbn [date start_time end_time room_id name capacity creator_id
                     description location mode set_room_id StudyRoom_init
                     rooms users creator_rel]; eauto.
Qed.

Lemma create_study_room_created f db data resp db' :
  create_study_room f db data = (resp, db') → status resp = 201 →
  create_try f db data = Ok (resp, db').
Proof.
  unfold create_study_room. destruct (create_try f db data) as [r|e].
  - by intros ->.
  - intros H Hs. injection H as <- <-. discriminate Hs.
Qed.

(** C10. After a successful create, the stored row holds a date [d], and
    its [start_time] and [end_time] are datetimes whose date part is [d]. *)
Theorem create_times_share_date f db data resp db' :
  create_study_room f db data = (resp, db') →
  status resp = 201 →
  ∃ row d st et,
    rooms db' !! next_id db = Some row ∧
    field resp.1 "room_id" = Some (JInt (next_id db)) ∧
    date row = PyDate d ∧
    start_time row = PyDateTime st ∧ dt_date st = d ∧
    end_time row = PyDateTime et ∧ dt_date et = d.
Proof.
  intros H Hs. apply create_study_room_created in H; [|done].
  destruct (create_try_created _ _ _ _ _ H Hs)
    as (d & ts & te & row & _ & _ & _ & Hd & Hst & Het & _ & _ & _ & _ & _ & _ & _
        & Hrooms & _ & _ & _ & ->).
  exists row, d, (combine d ts), (combine d te).
  rewrite Hrooms, lookup_insert_eq. repeat split; try done.
Qed.

Lemma create_times_share_date_witness :
  ∃ row d st et,
    rooms (create_study_room no_faults empty_db
             (JDict (sample_payload (JStr "Lab") (JInt 4)))).2 !! next_id empty_db
      = Some row ∧
    field (create_study_room no_faults empty_db
             (JDict (sample_payload (JStr "Lab") (JInt 4)))).1.1 "room_id"
      = Some (JInt (next_id empty_db)) ∧
    date row = PyDate d ∧
    start_time row = PyDateTime st ∧ dt_date st = d ∧
    end_time row = PyDateTime et ∧ dt_date et = d.
Proof.
  apply (create_times_share_date no_faults empty_db
           (JDict (sample_payload (JStr "Lab") (JInt 4)))).
  - apply surjective_pairing.
  - vm_compute. reflexivity.
Defined.

(** ** Fetch-one on a row as create stores it *)

Lemma str_or_empty s : str_or s "" = s.
Proof. unfold str_or. by case_bool_decide. Qed.

Lemma str_or_cons c s d : str_or (String c s) d = String c s.
Proof. unfold str_or. by rewrite bool_decide_eq_false_2. Qed.

Lemma creator_data_no_fault f db room :
  load_fault f = None →
  creator_data (room_creator f db room) = Ok ∅ ∨
  ∃ u, creator_data (room_creator f db room) = Ok (creator_dict u).
Proof.
  intros Hf. unfold room_creator. rewrite Hf.
  destruct (creator_rel db); [|by left].
  destruct (creator_id room); try (by left).
  destruct (users db !! z) as [u|]; [right; by exists u|by left].
Qed.

Lemma get_try_created f db row n k c d st et l mo :
  load_fault f = None →
  name row = PyStr n → capacity row = PyInt k → creator_id row = PyInt c →
  (py_truthy (description row) = false ∨ ∃ s, description row = PyStr s) →
  date row = PyDate d →
  start_time row = PyDateTime st → end_time row = PyDateTime et →
  location row = PyStr l → mode row = PyStr mo →
  ∃ body, get_try f db row = Ok (body, 200) ∧
    field body "date" = Some (JStr (date_isoformat d)) ∧
    field body "start_time" = Some (JStr (time_strftime_HM (dt_time st))) ∧
    field body "end_time" = Some (JStr (time_strftime_HM (dt_time et))).
Proof.
  intros Hf Hn Hk Hc Hdesc Hd Hst Het Hl Hmo. unfold get_try.
  rewrite Hn, Hk, Hc, Hd, Hst, Het, Hl, Hmo.
  assert (∃ s, if_else (description row) (PyStr "") = PyStr s) as [ds ->].
  { unfold if_else. destruct Hdesc as [->|[s ->]]; [by eexists|].
    destruct (py_truthy (PyStr s)); by eexists. }
  cbn [read_date_str read_time_str is_none try_except py_isoformat py_strftime_HM
       mbind result_bind default].
  assert (∃ rid rs, JVal (py_of_id (room_id row)) = JVal rid
            ∧ encodable (JVal rid) = true
            ∧ "room-" +:+ py_str (py_of_id (room_id row)) = rs) as (rid & rs & -> & Hrid & ->).
  { destruct (room_id row); by eexists _, _. }
  rewrite str_or_empty. unfold time_strftime_HM, pad2.
  rewrite !append_cons, !str_or_cons.
  generalize (date_isoformat d) as s1.
  unfold if_else. simpl py_truthy.
  generalize (digit_char (t_hour (dt_time st) / 10)) (digit_char (t_hour (dt_time st) mod 10))
    (digit_char (t_minute (dt_time st) / 10)) (digit_char (t_minute (dt_time st) mod 10))
    (digit_char (t_hour (dt_time et) / 10)) (digit_char (t_hour (dt_time et) mod 10))
    (digit_char (t_minute (dt_time et) / 10)) (digit_char (t_minute (dt_time et) mod 10)).
  intros a1 a2 a3 a4 b1 b2 b3 b4 s1.
  assert (∃ s, (if negb (bool_decide (n = "")) then PyStr n else PyStr "") = PyStr s) as [n' ->]
    by (destruct (negb _); by eexists).
  assert (∃ s, (if negb (bool_decide (l = "")) then PyStr l else PyStr "") = PyStr s) as [l' ->]
    by (destruct (negb _); by eexists).
  assert (∃ s, (if negb (bool_decide (mo = "")) then PyStr mo else PyStr "") = PyStr s) as [mo' ->]
    by (destruct (negb _); by eexists).
  assert (∃ z, (if negb (k =? 0) then PyInt k else PyInt 0) = PyInt z) as [k' ->]
    by (destruct (negb _); by eexists).
  unfold jsonify.
  destruct (creator_data_no_fault f db row Hf) as [->|[u ->]];
    cbn [mbind result_bind];
    match goal with
    | |- context [encodable ?X] =>
        assert (encodable X = true) as ->
          by (vm_compute; vm_compute in Hrid; rewrite Hrid; reflexivity)
    end;
    (eexists; split; [reflexivity|]; repeat split; vm_compute; reflexivity).
Qed.

(** C5. When a create is answered 201, with the payload's [date] the ISO
    form of a valid date and its [start_time] and [end_time] of the form
    HH:MM, a fetch-one of the returned [room_id] (the storage answering
    without fault) is answered 200 with exactly those three strings. *)
Theorem create_fetch_round_trip f f' db (m : gmap string json) d hs ms he me resp db' :
  valid_date d = true →
  0 ≤ hs ≤ 23 → 0 ≤ ms ≤ 59 → 0 ≤ he ≤ 23 → 0 ≤ me ≤ 59 →
  m !! "date" = Some (JStr (date_isoformat d)) →
  m !! "start_time" = Some (JStr (pad2 hs +:+ ":" +:+ pad2 ms)) →
  m !! "end_time" = Some (JStr (pad2 he +:+ ":" +:+ pad2 me)) →
  create_study_room f db (JDict m) = (resp, db') →
  status resp = 201 →
  query_fault f' = None → load_fault f' = None →
  ∃ id,
    field resp.1 "room_id" = Some (JInt id) ∧
    status (get_study_room f' db' id) = 200 ∧
    field (get_study_room f' db' id).1 "date" = Some (JStr (date_isoformat d)) ∧
    field (get_study_room f' db' id).1 "start_time"
      = Some (JStr (pad2 hs +:+ ":" +:+ pad2 ms)) ∧
    field (get_study_room f' db' id).1 "end_time"
      = Some (JStr (pad2 he +:+ ":" +:+ pad2 me)).
Proof.
  intros Hd Hhs Hms Hhe Hme Hmd Hmst Hmet Hc Hs Hq Hl.
  apply create_study_room_created in Hc; [|done].
  destruct (create_try_created _ _ _ _ _ Hc Hs)
    as (d' & ts & te & row & Hpd & Hpst & Hpet & Hrd & Hrst & Hret & _ & (n & Hn & _)
        & (k & Hk & _) & (c & Hcid) & Hdesc & (l & Hloc & _) & (mo & Hmo & _)
        & Hrooms & _ & _ & _ & ->).
  unfold payload_date in Hpd. unfold payload_time in Hpst, Hpet.
  simpl in Hpd, Hpst, Hpet. rewrite Hmd in Hpd. rewrite Hmst in Hpst. rewrite Hmet in Hpet.
  simpl in Hpd, Hpst, Hpet.
  rewrite (str_strip_no_space _ (date_isoformat_no_space d Hd)) in Hpd.
  rewrite (strptime_date_isoformat d Hd) in Hpd. injection Hpd as <-.
  destruct (strptime_time_pad hs ms Hhs Hms) as [Hp1 Hs1].
  destruct (strptime_time_pad he me Hhe Hme) as [Hp2 Hs2].
  rewrite Hs1, Hp1 in Hpst. rewrite Hs2, Hp2 in Hpet.
  injection Hpst as <-. injection Hpet as <-.
  exists (next_id db). split; [vm_compute; reflexivity|].
  assert (row_loads row = true) as Hld
    by (unfold row_loads; rewrite Hrd, Hrst, Hret; reflexivity).
  unfold get_study_room, query_get. rewrite Hq, Hrooms, lookup_insert_eq, Hld.
  cbv beta iota.
  destruct (get_try_created f' db' row n k c d _ _ l mo Hl Hn Hk Hcid Hdesc Hrd Hrst Hret Hloc Hmo)
    as (body & -> & Hb1 & Hb2 & Hb3).
  repeat split; done.
Qed.

Lemma create_fetch_round_trip_witness :
  ∃ id,
    field (create_study_room no_faults empty_db
             (JDict (sample_payload (JStr "Lab") (JInt 4)))).1.1 "room_id"
      = Some (JInt id) ∧
    status (get_study_room no_faults
              (create_study_room no_faults empty_db
                 (JDict (sample_payload (JStr "Lab") (JInt 4)))).2 id) = 200 ∧
    field (get_study_room no_faults
             (create_study_room no_faults empty_db
                (JDict (sample_payload (JStr "Lab") (JInt 4)))).2 id).1 "date"
      = Some (JStr (date_isoformat (Date 2024 6 1))) ∧
    field (get_study_room no_faults
             (create_study_room no_faults empty_db
                (JDict (sample_payload (JStr "Lab") (JInt 4)))).2 id).1 "start_time"
      = Some (JStr (pad2 9 +:+ ":" +:+ pad2 0)) ∧
    field (get_study_room no_faults
             (create_study_room no_faults empty_db
                (JDict (sample_payload (JStr "Lab") (JInt 4)))).2 id).1 "end_time"
      = Some (JStr (pad2 10 +:+ ":" +:+ pad2 30)).
Proof.
  apply (create_fetch_round_trip no_faults no_faults empty_db
           (sample_payload (JStr "Lab") (JInt 4)) (Date 2024 6 1) 9 0 10 30).
  - vm_compute. reflexivity.
  - lia.
  - lia.
  - lia.
  - lia.
  - vm_compute. reflexivity.
  - vm_compute. reflexivity.
  - vm_compute. reflexivity.
  - apply surjective_pairing.
  - vm_compute. reflexivity.
  - reflexivity.
  - reflexivity.
Defined.

(** The round trip of the spec, evaluated: the three strings come back. *)
Example round_trip_2024_06_01 :
  let db := (create_study_room no_faults empty_db
               (JDict (sample_payload (JStr "Lab") (JInt 4)))).2 in
  field (get_study_room no_faults db 1).1 "date" = Some (JStr "2024-06-01") ∧
  field (get_study_room no_faults db 1).1 "start_time" = Some (JStr "09:00") ∧
  field (get_study_room no_faults db 1).1 "end_time" = Some (JStr "10:30").
Proof. vm_compute. auto. Qed.

(** ** The read handlers *)

Section dict_fields.
Variables v1 v2 v3 v4 v5 v6 v7 v8 v9 v10 v11 v12 v13 v14 v15 v16 : json.

(** The body built by [get_study_room] *)
Lemma get_body_fields :
  let body := mkdict [("room_id", v1); ("id", v2); ("name", v3); ("subject", v4);
                      ("capacity", v5); ("description", v6); ("participants", v7);
                      ("host", v8); ("creator_id", v9); ("creator", v10);
                      ("date", v11); ("start_time", v12); ("end_time", v13);
                      ("location", v14); ("mode", v15)] in
  field body "host" = Some v8 ∧ field body "start_time" = Some v12 ∧
  field body "end_time" = Some v13 ∧ field body "date" = Some v11 ∧
  field body "error" = None.
Proof. vm_compute. auto. Qed.

(** The placeholders of [get_study_room] and the fallback of [to_dict] *)
Lemma placeholder_fields :
  let body := mkdict [("room_id", v1); ("id", v2); ("name", v3); ("subject", v4);
                      ("description", v5); ("capacity", v6); ("participants", v7);
                      ("host", v8); ("creator_id", v9); ("creator", v10);
                      ("date", v11); ("start_time", v12); ("end_time", v13);
                      ("location", v14); ("mode", v15); ("error", v16)] in
  field body "host" = Some v8 ∧ field body "start_time" = Some v12 ∧
  field body "end_time" = Some v13 ∧ field body "date" = Some v11 ∧
  field body "error" = Some v16.
Proof. vm_compute. auto. Qed.

(** The dict built by [to_dict] *)
Lemma to_dict_fields :
  let body := mkdict [("room_id", v1); ("id", v2); ("name", v3); ("subject", v4);
                      ("description", v5); ("capacity", v6); ("participants", v7);
                      ("host", v8); ("creator_id", v9); ("creator", v10);
                      ("date", v11); ("start_time", v12); ("end_time", v13);
                      ("location", v14); ("mode", v15)] in
  field body "host" = Some v8 ∧ field body "start_time" = Some v12 ∧
  field body "end_time" = Some v13 ∧ field body "date" = Some v11 ∧
  field body "error" = None.
Proof. vm_compute. auto. Qed.

(** An element built by [get_all_study_rooms] *)
Lemma all_body_fields :
  let body := mkdict [("room_id", v1); ("name", v2); ("description", v3);
                      ("capacity", v4); ("creator_id", v5); ("creator", v6);
                      ("host", v7); ("date", v8); ("start_time", v9);
                      ("end_time", v10); ("location", v11); ("mode", v12)] in
  field body "host" = Some v7 ∧ field body "start_time" = Some v9 ∧
  field body "end_time" = Some v10 ∧ field body "date" = Some v8 ∧
  field body "error" = None.
Proof. vm_compute. auto. Qed.

(** A placeholder element of [get_all_study_rooms] *)
Lemma all_placeholder_fields :
  let body := mkdict [("room_id", v1); ("name", v2); ("description", v3);
                      ("capacity", v4); ("creator_id", v5); ("creator", v6);
                      ("host", v7); ("date", v8); ("start_time", v9);
                      ("end_time", v10); ("location", v11); ("mode", v12);
                      ("error", v13)] in
  field body "host" = Some v7 ∧ field body "start_time" = Some v9 ∧
  field body "end_time" = Some v10 ∧ field body "date" = Some v8 ∧
  field body "error" = Some v13.
Proof. vm_compute. auto. Qed.
End dict_fields.

Lemma jsonify_ok body s r : jsonify body s = Ok r → r = (body, s).
Proof. unfold jsonify. destruct (encodable body); intros H; by simplify_eq. Qed.

(** What [get_try] returns when it returns *)
Lemma get_try_ok f db room r :
  get_try f db room = Ok r →
  ∃ cd ds st et,
    creator_data (room_creator f db room) = Ok cd ∧
    read_date_str (date room) = Ok ds ∧
    read_time_str (start_time room) = Ok st ∧
    read_time_str (end_time room) = Ok et ∧
    status r = 200 ∧
    field r.1 "host" = Some (default (JStr "Anonymous") (cd !! "username")) ∧
    field r.1 "start_time" = Some (JStr (str_or st "00:00")) ∧
    field r.1 "end_time" = Some (JStr (str_or et "00:00")) ∧
    field r.1 "date" = Some (JStr (str_or (default "" ds) "")) ∧
    field r.1 "error" = None.
Proof.
  unfold get_try. intros H.
  apply bind_ok in H as (cd & Hcd & H). apply bind_ok in H as (ds & Hds & H).
  apply bind_ok in H as (st & Hst & H). apply bind_ok in H as (et & Het & H).
  apply jsonify_ok in H. subst r. exists cd, ds, st, et.
  repeat (split; [done|]). cbn [fst].
  match goal with
  | |- context [mkdict [(_, ?a1); (_, ?a2); (_, ?a3); (_, ?a4); (_, ?a5); (_, ?a6);
                        (_, ?a7); (_, ?a8); (_, ?a9); (_, ?a10); (_, ?a11); (_, ?a12);
                        (_, ?a13); (_, ?a14); (_, ?a15)]] =>
      pose proof (get_body_fields a1 a2 a3 a4 a5 a6 a7 a8 a9 a10 a11 a12 a13 a14 a15) as Hf
  end.
  cbv zeta in Hf. destruct Hf as (? & ? & ? & ? & ?). done.
Qed.

(** What [all_try] returns when it returns *)
Lemma all_try_ok f db room item :
  all_try f db room = Ok item →
  ∃ cd ds st et,
    creator_data (room_creator f db room) = Ok cd ∧
    read_date_str (date room) = Ok ds ∧
    read_time_str (start_time room) = Ok st ∧
    read_time_str (end_time room) = Ok et ∧
    field item "host" = Some (JDict cd) ∧
    field item "start_time" = Some (JStr st) ∧
    field item "end_time" = Some (JStr et) ∧
    field item "date" = Some (opt_str ds) ∧
    field item "error" = None.
Proof.
  unfold all_try. intros H.
  apply bind_ok in H as (cd & Hcd & H). apply bind_ok in H as (ds & Hds & H).
  apply bind_ok in H as (st & Hst & H). apply bind_ok in H as (et & Het & H).
  injection H as <-. exists cd, ds, st, et.
  repeat (split; [done|]).
  match goal with
  | |- context [mkdict [(_, ?a1); (_, ?a2); (_, ?a3); (_, ?a4); (_, ?a5); (_, ?a6);
                        (_, ?a7); (_, ?a8); (_, ?a9); (_, ?a10); (_, ?a11); (_, ?a12)]] =>
      pose proof (all_body_fields a1 a2 a3 a4 a5 a6 a7 a8 a9 a10 a11 a12) as Hf
  end.
  cbv zeta in Hf. destruct Hf as (? & ? & ? & ? & ?). done.
Qed.

Lemma get_placeholder_fields label id e :
  field (get_placeholder label id e) "start_time" = Some (JStr "00:00") ∧
  field (get_placeholder label id e) "end_time" = Some (JStr "00:00") ∧
  field (get_placeholder label id e) "host" = Some (JStr "Unknown") ∧
  field (get_placeholder label id e) "error" = Some (JStr ("Error: " +:+ exn_str e)).
Proof.
  unfold get_placeholder.
  match goal with
  | |- context [mkdict [(_, ?a1); (_, ?a2); (_, ?a3); (_, ?a4); (_, ?a5); (_, ?a6);
                        (_, ?a7); (_, ?a8); (_, ?a9); (_, ?a10); (_, ?a11); (_, ?a12);
                        (_, ?a13); (_, ?a14); (_, ?a15); (_, ?a16)]] =>
      pose proof (placeholder_fields a1 a2 a3 a4 a5 a6 a7 a8 a9 a10 a11 a12 a13 a14 a15 a16) as Hf
  end.
  cbv zeta in Hf. destruct Hf as (? & ? & ? & ? & ?). done.
Qed.

Lemma all_placeholder_error room e :
  field (all_placeholder room e) "start_time" = Some (JStr "00:00") ∧
  field (all_placeholder room e) "end_time" = Some (JStr "00:00") ∧
  field (all_placeholder room e) "error" = Some (JStr ("Error: " +:+ exn_str e)).
Proof.
  unfold all_placeholder.
  match goal with
  | |- context [mkdict [(_, ?a1); (_, ?a2); (_, ?a3); (_, ?a4); (_, ?a5); (_, ?a6);
                        (_, ?a7); (_, ?a8); (_, ?a9); (_, ?a10); (_, ?a11); (_, ?a12);
                        (_, ?a13)]] =>
      pose proof (all_placeholder_fields a1 a2 a3 a4 a5 a6 a7 a8 a9 a10 a11 a12 a13) as Hf
  end.
  cbv zeta in Hf. destruct Hf as (? & ? & ? & ? & ?). done.
Qed.

Lemma get_study_room_status f db id :
  status (get_study_room f db id) = 200 ∨
  (status (get_study_room f db id) = 404 ∧ query_get f db id = Ok None).
Proof.
  unfold get_study_room. destruct (query_get f db id) as [[room|]|e].
  - destruct (get_try f db room) as [r|e] eqn:E; [|by left].
    left. by destruct (get_try_ok _ _ _ _ E) as (? & ? & ? & ? & ? & ? & ? & ? & ? & ?).
  - by right.
  - by left.
Qed.

Lemma get_all_body f db :
  get_all_study_rooms f db = (JList [], 200) ∨
  ∃ rows, query_all f db = Ok rows ∧
          get_all_study_rooms f db = (JList (room_data f db <$> rows), 200).
Proof.
  unfold get_all_study_rooms. destruct (query_all f db) as [rows|e]; [|by left].
  cbn [mbind result_bind]. unfold jsonify.
  destruct (encodable _); [right; by exists rows|by left].
Qed.

(** C1. Fetch-one answers 200 or 404, and 404 (with "Room not found")
    exactly when the lookup finds no row; when serializing the row raises,
    or the lookup itself raises, the answer is 200 with the placeholder,
    which carries an [error] field.  Fetch-all always answers 200, with the
    empty list or one element per row, the element of a row whose
    serialization raises being the placeholder with its [error] field. *)
Theorem read_paths_never_5xx f db :
  (∀ id,
     (status (get_study_room f db id) = 200 ∨ status (get_study_room f db id) = 404) ∧
     (status (get_study_room f db id) = 404 ↔ query_get f db id = Ok None) ∧
     (query_get f db id = Ok None →
      get_study_room f db id = (message "Room not found", 404)) ∧
     (∀ room e, query_get f db id = Ok (Some room) → get_try f db room = Raise e →
        get_study_room f db id = (get_placeholder "Room " id e, 200) ∧
        field (get_placeholder "Room " id e) "error"
          = Some (JStr ("Error: " +:+ exn_str e))) ∧
     (∀ e, query_get f db id = Raise e →
        get_study_room f db id = (get_placeholder "Error Room " id e, 200) ∧
        field (get_placeholder "Error Room " id e) "error"
          = Some (JStr ("Error: " +:+ exn_str e)))) ∧
  status (get_all_study_rooms f db) = 200 ∧
  ((get_all_study_rooms f db).1 = JList [] ∨
   ∃ rows, query_all f db = Ok rows ∧
           (get_all_study_rooms f db).1 = JList (room_data f db <$> rows)) ∧
  (∀ room e, all_try f db room = Raise e →
     room_data f db room = all_placeholder room e ∧
     field (room_data f db room) "error" = Some (JStr ("Error: " +:+ exn_str e))).
Proof.
  split; [intros id|].
  - split; [|split; [|split; [|split]]].
    + destruct (get_study_room_status f db id) as [?|[? ?]]; auto.
    + split.
      * intros H404. destruct (get_study_room_status f db id) as [H200|[_ ?]]; [|done].
        rewrite H200 in H404. discriminate H404.
      * intros Hq. unfold get_study_room. by rewrite Hq.
    + intros Hq. unfold get_study_room. by rewrite Hq.
    + intros room e Hq He. split; [|apply get_placeholder_fields].
      unfold get_study_room. by rewrite Hq, He.
    + intros e Hq. split; [|apply get_placeholder_fields].
      unfold get_study_room. by rewrite Hq.
  - split; [|split].
    + destruct (get_all_body f db) as [->|(rows & _ & ->)]; done.
    + destruct (get_all_body f db) as [->|(rows & Hr & ->)]; [by left|right; by exists rows].
    + intros room e He. unfold room_data. rewrite He.
      split; [done|apply all_placeholder_error].
Qed.

Lemma read_paths_never_5xx_witness :
  get_study_room
    {| query_fault := None; load_fault := Some (Exn OtherError "connection lost");
       commit_fault := None |} sample_db 1
  = (get_placeholder "Room " 1 (Exn OtherError "connection lost"), 200) ∧
  field (get_placeholder "Room " 1 (Exn OtherError "connection lost")) "error"
  = Some (JStr ("Error: " +:+ exn_str (Exn OtherError "connection lost"))).
Proof.
  apply (proj1 (read_paths_never_5xx
                  {| query_fault := None;
                     load_fault := Some (Exn OtherError "connection lost");
                     commit_fault := None |} sample_db) 1)
    with (room := sample_room).
  - vm_compute. reflexivity.
  - vm_compute. reflexivity.
Defined.

(** ** The [host] field *)

Lemma creator_data_ok f db room cd :
  creator_data (room_creator f db room) = Ok cd →
  cd = host_object (attached_creator f db room).
Proof.
  unfold creator_data, attached_creator, py_hasattr.
  destruct (room_creator f db room) as [|e|[u|]]; simpl.
  - intros H. by simplify_eq.
  - destruct (exn_kind e); simpl; intros H; by simplify_eq.
  - intros H. by simplify_eq.
  - intros H. by simplify_eq.
Qed.

Lemma host_object_username u :
  default (JStr "Anonymous") (host_object u !! "username") = JStr (host_name u).
Proof. destruct u as [u|]; [|done]. vm_compute. reflexivity. Qed.

Lemma host_object_keys u :
  host_object u = ∅ ∨
  (host_object u !! "id" = Some (JInt (from_option user_id 0 u)) ∧
   host_object u !! "username" = Some (JStr (host_name u)) ∧
   host_object u !! "email" = Some (JStr (from_option email "" u))).
Proof. destruct u as [u|]; [right|by left]. vm_compute. auto. Qed.

Lemma get_all_items f db items item :
  (get_all_study_rooms f db).1 = JList items → item ∈ items →
  ∃ id room, rooms db !! id = Some room ∧ item = room_data f db room.
Proof.
  intros Hb Hin. destruct (get_all_body f db) as [E|(rows & Hr & E)]; rewrite E in Hb.
  - injection Hb as <-. by apply elem_of_nil in Hin.
  - injection Hb as <-. apply list_elem_of_fmap in Hin as (room & -> & Hin).
    unfold query_all in Hr. destruct (query_fault f); [done|]. cbv zeta in Hr.
    destruct (forallb row_loads _); [|done]. injection Hr as <-.
    apply list_elem_of_fmap in Hin as ([id room'] & -> & Hin).
    apply elem_of_map_to_list in Hin. by exists id, room'.
Qed.

(** C9. In a fetch-one answer without [error], [host] is a string: the
    username of the attached creator, or "Anonymous" when there is none. In
    a fetch-all answer, every element is that of a stored row, and when it
    has no [error] its [host] is the creator object (id, username, email),
    or the empty dict when no creator is attached. *)
Theorem host_shapes f db :
  (∀ id room, query_get f db id = Ok (Some room) →
     field (get_study_room f db id).1 "error" = None →
     field (get_study_room f db id).1 "host"
       = Some (JStr (host_name (attached_creator f db room)))) ∧
  (∀ items item, (get_all_study_rooms f db).1 = JList items → item ∈ items →
     ∃ id room, rooms db !! id = Some room ∧ item = room_data f db room ∧
       (field item "error" = None →
        field item "host" = Some (JDict (host_object (attached_creator f db room))))) ∧
  (∀ u, host_object u = ∅ ∨
     (host_object u !! "id" = Some (JInt (from_option user_id 0 u)) ∧
      host_object u !! "username" = Some (JStr (host_name u)) ∧
      host_object u !! "email" = Some (JStr (from_option email "" u)))).
Proof.
  split; [|split].
  - intros id room Hq. unfold get_study_room. rewrite Hq.
    destruct (get_try f db room) as [r|e] eqn:E.
    + destruct (get_try_ok _ _ _ _ E) as (cd & ? & ? & ? & Hcd & _ & _ & _ & _ & Hh & _).
      intros _. apply creator_data_ok in Hcd. subst cd.
      simpl in Hh |- *. by rewrite Hh, host_object_username.
    + intros Herr. cbn [fst] in Herr.
      destruct (get_placeholder_fields "Room " id e) as (_ & _ & _ & He).
      rewrite He in Herr. discriminate Herr.
  - intros items item Hb Hin.
    destruct (get_all_items f db items item Hb Hin) as (id & room & Hl & ->).
    exists id, room. split; [done|]. split; [done|].
    unfold room_data. destruct (all_try f db room) as [it|e] eqn:E.
    + destruct (all_try_ok _ _ _ _ E) as (cd & ? & ? & ? & Hcd & _ & _ & _ & Hh & _).
      intros _. apply creator_data_ok in Hcd. by subst cd.
    + intros Herr. destruct (all_placeholder_error room e) as (_ & _ & He).
      rewrite He in Herr. discriminate Herr.
  - apply host_object_keys.
Qed.

Lemma host_shapes_witness :
  field (get_study_room no_faults sample_db 1).1 "host"
  = Some (JStr (host_name (attached_creator no_faults sample_db sample_room))).
Proof.
  apply (proj1 (host_shapes no_faults sample_db) 1 sample_room).
  - vm_compute. reflexivity.
  - vm_compute. reflexivity.
Defined.

(** On the sample data the two shapes are these. *)
Example host_of_sample_room :
  field (get_study_room no_faults sample_db 1).1 "host" = Some (JStr "alice") ∧
  (get_all_study_rooms no_faults sample_db).1
  = JList [room_data no_faults sample_db sample_room] ∧
  field (room_data no_faults sample_db sample_room) "host"
  = Some (mkdict [("id", JInt 7); ("username", JStr "alice"); ("email", JStr "a@x.org")]).
Proof. vm_compute. auto. Qed.

(** ** Stored times on the read paths *)





Lemma query_get_some f db id room :
  query_get f db id = Ok (Some room) →
  rooms db !! id = Some room ∧ row_loads room = true.
Proof.
  unfold query_get. destruct (query_fault f); [done|].
  destruct (rooms db !! id) as [row|]; [|done].
  destruct (row_loads row) eqn:E; [|done]. intros H. by simplify_eq.
Qed.


Lemma query_all_rows f db rows id row :
  query_all f db = Ok rows → rooms db !! id = Some row →
  row ∈ rows ∧ row_loads row = true.
Proof.
  unfold query_all. destruct (query_fault f); [done|]. cbv zeta.
  destruct (forallb row_loads _) eqn:E; [|done]. intros H Hr. injection H as <-.
  assert (row ∈ (map_to_list (rooms db)).*2) as Hin.
  { apply list_elem_of_fmap. exists (id, row). split; [done|].
    by apply elem_of_map_to_list. }
  split; [done|]. rewrite forallb_forall in E. apply E. by apply list_elem_of_In.
Qed.





(** A stored [start_time] the storage cannot load as a datetime: fetch-one
    answers 200 with the placeholder of the row and its "00:00", fetch-all
    answers the empty list.  A row with a null [end_time] is listed, with
    "00:00" for it. *)
Example malformed_times_on_read_paths :
  query_get no_faults garbled_db 1 = Raise load_error ∧
  field (get_study_room no_faults garbled_db 1).1 "start_time" = Some (JStr "00:00") ∧
  field (get_study_room no_faults garbled_db 1).1 "name" = Some (JStr "Error Room 1") ∧
  get_all_study_rooms no_faults garbled_db = (JList [], 200) ∧
  field (get_study_room no_faults open_ended_db 1).1 "end_time" = Some (JStr "00:00") ∧
  field (get_study_room no_faults open_ended_db 1).1 "error" = None ∧
  (∃ item, (get_all_study_rooms no_faults open_ended_db).1 = JList [item] ∧
           field item "end_time" = Some (JStr "00:00")).
Proof.
  do 6 (split; [vm_compute; reflexivity|]).
  eexists. split; vm_compute; reflexivity.
Qed.

(** ** Update: the row object, field by field *)

Lemma and_then_continue r k room' :
  and_then r k = Ok (Continue room') →
  ∃ room1, r = Ok (Continue room1) ∧ k room1 = Ok (Continue room').
Proof. destruct r as [[room1|room1 msg]|e]; simpl; intros H; [by exists room1|done|done]. Qed.

Lemma and_then_ok r k out :
  and_then r k = Ok out →
  (∃ room1, r = Ok (Continue room1) ∧ k room1 = Ok out) ∨
  (∃ room1 msg, r = Ok (Return400 room1 msg) ∧ out = Return400 room1 msg).
Proof.
  destruct r as [[room1|room1 msg]|e]; simpl; intros H.
  - left. by exists room1.
  - right. exists room1, msg. by simplify_eq.
  - done.
Qed.

Lemma py_combine_ok v t dt :
  py_combine v t = Ok dt → dt_time dt = t ∧ date_part v = Some (dt_date dt).
Proof. destruct v; simpl; intros H; by simplify_eq. Qed.

Lemma update_stripped_ok key set (m : gmap string json) room out :
  update_stripped key set (JDict m) room = Ok out →
  (m !! key = None ∧ out = Continue room) ∨
  (∃ s, m !! key = Some (JStr s) ∧ out = Continue (set room (PyStr (str_strip s)))).
Proof.
  unfold update_stripped. simpl. destruct (m !! key) as [v|] eqn:E.
  - rewrite bool_decide_eq_true_2 by done. simpl.
    destruct v as [[]| |]; simpl; intros H; simplify_eq. right. by eexists.
  - rewrite bool_decide_eq_false_2 by (by intros [? ?]). intros H. simplify_eq. by left.
Qed.

Lemma update_capacity_ok (m : gmap string json) room out :
  update_capacity (JDict m) room = Ok out →
  (m !! "capacity" = None ∧ out = Continue room) ∨
  (∃ v n, m !! "capacity" = Some v ∧ py_int v = Ok n ∧
          out = Continue (set_capacity room (PyInt n))) ∨
  (∃ v e, m !! "capacity" = Some v ∧ py_int v = Raise e ∧
          out = Return400 room "Capacity must be an integer").
Proof.
  unfold update_capacity. simpl. destruct (m !! "capacity") as [v|] eqn:E.
  - rewrite bool_decide_eq_true_2 by done. simpl. unfold try_except.
    destruct (py_int v) as [n|e] eqn:En; simpl.
    + intros H. simplify_eq. right. left. by eexists _, _.
    + destruct (value_or_type_error e); intros H; simplify_eq.
      right. right. by eexists _, _.
  - rewrite bool_decide_eq_false_2 by (by intros [? ?]). intros H. simplify_eq. by left.
Qed.

Lemma update_date_ok (m : gmap string json) room out :
  update_date (JDict m) room = Ok out →
  (m !! "date" = None ∧ out = Continue room) ∨
  (∃ s d, m !! "date" = Some (JStr s) ∧ strptime_date (str_strip s) = Ok d ∧
          out = Continue (set_date room (PyDate d))) ∨
  (∃ s e, m !! "date" = Some (JStr s) ∧ strptime_date (str_strip s) = Raise e ∧
          out = Return400 room "Invalid date format, expected YYYY-MM-DD").
Proof.
  unfold update_date. simpl. destruct (m !! "date") as [v|] eqn:E.
  - rewrite bool_decide_eq_true_2 by done. simpl.
    destruct v as [[]| |]; simpl; try (intros H; by simplify_eq).
    unfold try_except. destruct (strptime_date (str_strip s)) as [d|e] eqn:Ed.
    + intros H. simplify_eq. right. left. by eexists _, _.
    + destruct (value_error e); intros H; simplify_eq.
      right. right. by eexists _, _.
  - rewrite bool_decide_eq_false_2 by (by intros [? ?]). intros H. simplify_eq. by left.
Qed.

Lemma update_time_ok key set msg (m : gmap string json) room out :
  update_time key set msg (JDict m) room = Ok out →
  (m !! key = None ∧ out = Continue room) ∨
  (∃ s t dt, m !! key = Some (JStr s) ∧ strptime_time (str_strip s) = Ok t ∧
             py_combine (date room) t = Ok dt ∧
             out = Continue (set room (PyDateTime dt))) ∨
  (∃ s, m !! key = Some (JStr s) ∧ out = Return400 room msg).
Proof.
  unfold update_time. simpl. destruct (m !! key) as [v|] eqn:E.
  - rewrite bool_decide_eq_true_2 by done. simpl.
    destruct v as [[]| |]; simpl; try (intros H; by simplify_eq).
    unfold try_except. destruct (strptime_time (str_strip s)) as [t|e] eqn:Et; simpl.
    + destruct (py_combine (date room) t) as [dt|e] eqn:Ec.
      * intros H. simplify_eq. right. left. by eexists _, _, _.
      * destruct (value_error e); intros H; simplify_eq. right. right. by eexists.
    + destruct (value_error e); intros H; simplify_eq. right. right. by eexists.
  - rewrite bool_decide_eq_false_2 by (by intros [? ?]). intros H. simplify_eq. by left.
Qed.

Lemma update_payload_dict (m : gmap string json) :
  (if json_truthy (JDict m) then JDict m else JDict ∅) = JDict m.
Proof.
  simpl. destruct (map_to_list m) eqn:E; [|done].
  apply map_to_list_empty_iff in E. by subst.
Qed.

Ltac room_fields :=
  unfold fields_after, applied_stripped, applied_capacity, applied_date,
    applied_time in *;
  cbn [Nat.leb room_id name description capacity creator_id date start_time
       end_time location mode set_name set_description set_capacity set_date
       set_start_time set_end_time set_location set_mode] in *.

Lemma fields_after_start m room : fields_after 0 m room room.
Proof. by room_fields. Qed.

Lemma fields_after_name m room r out :
  fields_after 0 m room r →
  update_stripped "name" set_name (JDict m) r = Ok out →
  ∃ r', out = Continue r' ∧ fields_after 1 m room r'.
Proof.
  intros HF H. apply update_stripped_ok in H as [[E ->]|(s & E & ->)];
    (eexists; split; [reflexivity|]); room_fields; rewrite E;
    destruct HF as (?&?&?&?&?&?&?&?&?&?); split_and!; try done. by eexists.
Qed.

Lemma fields_after_description m room r out :
  fields_after 1 m room r →
  update_stripped "description" set_description (JDict m) r = Ok out →
  ∃ r', out = Continue r' ∧ fields_after 2 m room r'.
Proof.
  intros HF H. apply update_stripped_ok in H as [[E ->]|(s & E & ->)];
    (eexists; split; [reflexivity|]); room_fields; rewrite E;
    destruct HF as (?&?&?&?&?&?&?&?&?&?); split_and!; try done. by eexists.
Qed.

Lemma fields_after_capacity m room r out :
  fields_after 2 m room r →
  update_capacity (JDict m) r = Ok out →
  (∃ r', out = Continue r' ∧ fields_after 3 m room r') ∨
  (out = Return400 r "Capacity must be an integer" ∧
   ∃ v e, m !! "capacity" = Some v ∧ py_int v = Raise e).
Proof.
  intros HF H.
  apply update_capacity_ok in H as [[E ->]|[(v & n & E & Hn & ->)|(v & e & E & Hn & ->)]].
  - left. eexists; split; [reflexivity|]. room_fields. rewrite E.
    destruct HF as (?&?&?&?&?&?&?&?&?&?). by split_and!.
  - left. eexists; split; [reflexivity|]. room_fields. rewrite E.
    destruct HF as (?&?&?&?&?&?&?&?&?&?). split_and!; try done. by eexists.
  - right. split; [done|]. by eexists _, _.
Qed.

Lemma fields_after_date m room r out :
  fields_after 3 m room r →
  update_date (JDict m) r = Ok out →
  (∃ r', out = Continue r' ∧ fields_after 4 m room r') ∨
  (out = Return400 r "Invalid date format, expected YYYY-MM-DD" ∧
   ∃ s e, m !! "date" = Some (JStr s) ∧ strptime_date (str_strip s) = Raise e).
Proof.
  intros HF H.
  apply update_date_ok in H as [[E ->]|[(s & d & E & Hd & ->)|(s & e & E & Hd & ->)]].
  - left. eexists; split; [reflexivity|]. room_fields. rewrite E.
    destruct HF as (?&?&?&?&?&?&?&?&?&?). by split_and!.
  - left. eexists; split; [reflexivity|]. room_fields. rewrite E.
    destruct HF as (?&?&?&?&?&?&?&?&?&?). split_and!; try done. by eexists _, _.
  - right. split; [done|]. by eexists _, _.
Qed.

Lemma fields_after_start_time m room r out :
  fields_after 4 m room r →
  update_time "start_time" set_start_time
    "Invalid start_time format, expected HH:mm" (JDict m) r = Ok out →
  (∃ r', out = Continue r' ∧ fields_after 5 m room r') ∨
  (out = Return400 r "Invalid start_time format, expected HH:mm" ∧
   ∃ s, m !! "start_time" = Some (JStr s)).
Proof.
  intros HF H.
  apply update_time_ok in H as [[E ->]|[(s & t & dt & E & Ht & Hc & ->)|(s & E & ->)]].
  - left. eexists; split; [reflexivity|]. room_fields. rewrite E.
    destruct HF as (?&?&?&?&?&?&?&?&?&?). by split_and!.
  - left. eexists; split; [reflexivity|]. apply py_combine_ok in Hc as [Hc1 Hc2].
    room_fields. rewrite E.
    destruct HF as (?&?&?&?&?&?&?&?&?&?). split_and!; try done. by eexists _, _, _.
  - right. split; [done|]. by eexists.
Qed.

Lemma fields_after_end_time m room r out :
  fields_after 5 m room r →
  update_time "end_time" set_end_time
    "Invalid end_time format, expected HH:mm" (JDict m) r = Ok out →
  (∃ r', out = Continue r' ∧ fields_after 6 m room r') ∨
  (out = Return400 r "Invalid end_time format, expected HH:mm" ∧
   ∃ s, m !! "end_time" = Some (JStr s)).
Proof.
  intros HF H.
  apply update_time_ok in H as [[E ->]|[(s & t & dt & E & Ht & Hc & ->)|(s & E & ->)]].
  - left. eexists; split; [reflexivity|]. room_fields. rewrite E.
    destruct HF as (?&?&?&?&?&?&?&?&?&?). by split_and!.
  - left. eexists; split; [reflexivity|]. apply py_combine_ok in Hc as [Hc1 Hc2].
    room_fields. rewrite E.
    destruct HF as (?&?&?&?&?&?&?&?&?&?). split_and!; try done. by eexists _, _, _.
  - right. split; [done|]. by eexists.
Qed.

Lemma fields_after_location m room r out :
  fields_after 6 m room r →
  update_stripped "location" set_location (JDict m) r = Ok out →
  ∃ r', out = Continue r' ∧ fields_after 7 m room r'.
Proof.
  intros HF H. apply update_stripped_ok in H as [[E ->]|(s & E & ->)];
    (eexists; split; [reflexivity|]); room_fields; rewrite E;
    destruct HF as (?&?&?&?&?&?&?&?&?&?); split_and!; try done. by eexists.
Qed.

Lemma fields_after_mode m room r out :
  fields_after 7 m room r →
  update_stripped "mode" set_mode (JDict m) r = Ok out →
  ∃ r', out = Continue r' ∧ fields_after 8 m room r'.
Proof.
  intros HF H. apply update_stripped_ok in H as [[E ->]|(s & E & ->)];
    (eexists; split; [reflexivity|]); room_fields; rewrite E;
    destruct HF as (?&?&?&?&?&?&?&?&?&?); split_and!; try done. by eexists.
Qed.

(** The row object the field updates leave, whether they all went through
    or one of them stopped with a 400 *)
Lemma update_fields_ok (m : gmap string json) room out :
  update_fields (JDict m) room = Ok out →
  (∃ room', out = Continue room' ∧ fields_after 8 m room room') ∨
  (∃ room' stage msg, out = Return400 room' msg ∧ fields_after stage m room room' ∧
                      stopped_at m stage msg).
Proof.
  unfold update_fields. intros H. pose proof (fields_after_start m room) as F0.
  apply and_then_ok in H as [(r1 & H1 & H)|(r1 & msg & H1 & ->)];
    destruct (fields_after_name _ _ _ _ F0 H1) as (? & Heq & F1);
    [injection Heq as <-|discriminate Heq]. clear H1 F0.
  apply and_then_ok in H as [(r2 & H2 & H)|(r2 & msg & H2 & ->)];
    destruct (fields_after_description _ _ _ _ F1 H2) as (? & Heq & F2);
    [injection Heq as <-|discriminate Heq]. clear H2 F1.
  apply and_then_ok in H as [(r3 & H3 & H)|(r3 & msg & H3 & ->)];
    destruct (fields_after_capacity _ _ _ _ F2 H3) as [(? & Heq & F3)|[Heq R]];
    try discriminate Heq;
    [injection Heq as <-
    |injection Heq as -> ->; right; eexists _, 2%nat, _; split; [done|]; split; [done|]; by left].
  clear H3 F2.
  apply and_then_ok in H as [(r4 & H4 & H)|(r4 & msg & H4 & ->)];
    destruct (fields_after_date _ _ _ _ F3 H4) as [(? & Heq & F4)|[Heq R]];
    try discriminate Heq;
    [injection Heq as <-
    |injection Heq as -> ->; right; eexists _, 3%nat, _; split; [done|]; split; [done|];
     right; by left].
  clear H4 F3.
  apply and_then_ok in H as [(r5 & H5 & H)|(r5 & msg & H5 & ->)];
    destruct (fields_after_start_time _ _ _ _ F4 H5) as [(? & Heq & F5)|[Heq R]];
    try discriminate Heq;
    [injection Heq as <-
    |injection Heq as -> ->; right; eexists _, 4%nat, _; split; [done|]; split; [done|];
     right; right; by left].
  clear H5 F4.
  apply and_then_ok in H as [(r6 & H6 & H)|(r6 & msg & H6 & ->)];
    destruct (fields_after_end_time _ _ _ _ F5 H6) as [(? & Heq & F6)|[Heq R]];
    try discriminate Heq;
    [injection Heq as <-
    |injection Heq as -> ->; right; eexists _, 5%nat, _; split; [done|]; split; [done|];
     right; right; by right].
  clear H6 F5.
  apply and_then_ok in H as [(r7 & H7 & H)|(r7 & msg & H7 & ->)];
    destruct (fields_after_location _ _ _ _ F6 H7) as (? & Heq & F7);
    [injection Heq as <-|discriminate Heq]. clear H7 F6.
  destruct (fields_after_mode _ _ _ _ F7 H) as (r8 & -> & F8).
  left. by exists r8.
Qed.

Lemma update_study_room_ok f db id room (m : gmap string json) resp mem db' :
  query_get f db id = Ok (Some room) →
  update_study_room f db id (JDict m) = (resp, mem, db') →
  status resp = 200 →
  ∃ room', update_fields (JDict m) room = Ok (Continue room') ∧
           commit_fault f = None ∧
           mem = Some room' ∧ rooms db' = <[id := room']> (rooms db) ∧
           next_id db' = next_id db ∧ users db' = users db ∧
           creator_rel db' = creator_rel db ∧
           resp = (to_dict f db' room', 200).
Proof.
  intros Hq. unfold update_study_room. rewrite Hq, update_payload_dict.
  destruct (update_fields (JDict m) room) as [[room'|room' msg]|e].
  - destruct (commit_fault f) as [e|].
    { intros H Hs. injection H as <- _ _. discriminate Hs. }
    destruct (jsonify _ 200) as [r|e] eqn:E.
    + intros H _. injection H as <- <- <-. apply jsonify_ok in E. by exists room'.
    + intros H Hs. injection H as <- _ _. discriminate Hs.
  - intros H Hs. injection H as <- _ _. discriminate Hs.
  - intros H Hs. injection H as <- _ _. discriminate Hs.
Qed.




(** An update whose [capacity] is a number too large for a float of JSON
    (1e400 is read as infinity): [int] raises an OverflowError, which the
    handler of the field does not catch, and the answer is 500, with a
    rollback. *)
Example update_capacity_overflow :
  update_study_room no_faults sample_db 1
    (mkdict [("name", JStr "New"); ("capacity", JVal (PyFloat (FloatInf false) "inf"))])
  = (update_failed (Exn OverflowError "cannot convert float infinity to integer"),
     Some sample_room, sample_db).
Proof. vm_compute. reflexivity. Qed.

(** C8. When an update is answered 200, the stored row is the row object
    the handler leaves; its [date] is the payload's parsed date when the
    payload has one and the old date otherwise; and for a [start_time] or
    [end_time] in the payload the stored timestamp has the parsed time of
    day as its time and the date of that stored [date] as its date. *)
Theorem update_recombines_times f db id room (m : gmap string json) resp mem db' :
  query_get f db id = Ok (Some room) →
  update_study_room f db id (JDict m) = (resp, mem, db') →
  status resp = 200 →
  ∃ room',
    rooms db' !! id = Some room' ∧ mem = Some room' ∧
    (m !! "date" = None → date room' = date room) ∧
    (∀ v, m !! "date" = Some v →
       ∃ s d, v = JStr s ∧ strptime_date (str_strip s) = Ok d ∧ date room' = PyDate d) ∧
    (∀ v, m !! "start_time" = Some v →
       ∃ s t dt, v = JStr s ∧ strptime_time (str_strip s) = Ok t ∧
                 start_time room' = PyDateTime dt ∧
                 dt_time dt = t ∧ date_part (date room') = Some (dt_date dt)) ∧
    (∀ v, m !! "end_time" = Some v →
       ∃ s t dt, v = JStr s ∧ strptime_time (str_strip s) = Ok t ∧
                 end_time room' = PyDateTime dt ∧
                 dt_time dt = t ∧ date_part (date room') = Some (dt_date dt)) ∧
    (m !! "start_time" = None → start_time room' = start_time room) ∧
    (m !! "end_time" = None → end_time room' = end_time room).
Proof.
  intros Hq Hu Hs.
  destruct (update_study_room_ok _ _ _ _ _ _ _ _ Hq Hu Hs)
    as (room' & Hf & _ & -> & Hrooms & _).
  exists room'. rewrite Hrooms, lookup_insert_eq.
  apply update_fields_ok in Hf as [(r & Heq & HF)|(r & stage & msg' & Heq & _)];
    [|discriminate Heq].
  injection Heq as <-.
  destruct HF as (_ & _ & _ & _ & _ & Hd & Hst & Het & _). cbn [Nat.leb] in Hd, Hst, Het.
  unfold applied_date in Hd. unfold applied_time in Hst, Het.
  split; [done|]. split; [done|]. split_and!.
  - intros E. by rewrite E in Hd.
  - intros v E. by rewrite E in Hd.
  - intros v E. by rewrite E in Hst.
  - intros v E. by rewrite E in Het.
  - intros E. by rewrite E in Hst.
  - intros E. by rewrite E in Het.
Qed.

Lemma update_recombines_times_witness :
  ∃ room',
    rooms (update_study_room no_faults sample_db 1
             (mkdict [("date", JStr "2025-01-02"); ("start_time", JStr "8:15")])).2 !! 1
      = Some room' ∧
    date room' = PyDate (Date 2025 1 2) ∧
    start_time room' = PyDateTime (DateTime (Date 2025 1 2) (Time 8 15 0 0)) ∧
    end_time room' = PyDateTime (DateTime (Date 2024 6 1) (Time 10 30 0 0)).
Proof.
  destruct (update_recombines_times no_faults sample_db 1 sample_room
              (list_to_map [("date", JStr "2025-01-02"); ("start_time", JStr "8:15")])
              (update_study_room no_faults sample_db 1
                 (mkdict [("date", JStr "2025-01-02"); ("start_time", JStr "8:15")])).1.1
              (update_study_room no_faults sample_db 1
                 (mkdict [("date", JStr "2025-01-02"); ("start_time", JStr "8:15")])).1.2
              (update_study_room no_faults sample_db 1
                 (mkdict [("date", JStr "2025-01-02"); ("start_time", JStr "8:15")])).2)
    as (room' & Hr & _ & _ & Hd & Hst & _ & _ & Het).
  - vm_compute. reflexivity.
  - vm_compute. reflexivity.
  - vm_compute. reflexivity.
  - exists room'. split; [exact Hr|].
    destruct (Hd (JStr "2025-01-02")) as (s & d & Hs & Hp & Hd'); [vm_compute; reflexivity|].
    injection Hs as <-. vm_compute in Hp. injection Hp as <-.
    destruct (Hst (JStr "8:15")) as (s & t & dt & Hs & Hp & Hst' & Ht & Hdd);
      [vm_compute; reflexivity|].
    injection Hs as <-. vm_compute in Hp. injection Hp as <-.
    rewrite Hd' in Hdd. cbn [date_part] in Hdd. injection Hdd as Hdd.
    destruct dt as [dd tt]. cbn [dt_time dt_date] in Ht, Hdd. subst dd tt.
    split; [exact Hd'|]. split; [exact Hst'|].
    apply Het. vm_compute. reflexivity.
Defined.

(** ** Create: the success path and the failures of the storage *)

Lemma all_in_all (m : gmap string json) fields :
  (∀ k, k ∈ fields → is_Some (m !! k)) → all_in fields (JDict m) = Ok true.
Proof.
  induction fields as [|k ks IH]; intros H; [done|].
  change (all_in (k :: ks) (JDict m))
    with (b ← py_in k (JDict m); if b : bool then all_in ks (JDict m) else Ok false).
  destruct (H k) as [v Hv]; [by left|].
  rewrite (py_in_dict m k v Hv). cbn [mbind result_bind].
  apply IH. intros k' Hk'. apply H. by right.
Qed.

Lemma payload_stripped_inv (m : gmap string json) key s :
  payload_stripped key (JDict m) = Ok s → s ≠ "" →
  ∃ v, m !! key = Some (JStr v) ∧ str_strip v = s.
Proof.
  unfold payload_stripped. simpl. destruct (m !! key) as [[[]| |]|]; simpl;
    intros H Hs; simplify_eq; eauto.
Qed.

Lemma payload_int_inv (m : gmap string json) key n :
  payload_int key (JDict m) = Ok n → ∃ v, m !! key = Some v ∧ py_int v = Ok n.
Proof.
  unfold payload_int. simpl. destruct (m !! key) as [v|]; simpl; intros H; [eauto|done].
Qed.

Lemma payload_date_inv (m : gmap string json) d :
  payload_date (JDict m) = Ok d →
  ∃ v, m !! "date" = Some (JStr v) ∧ str_strip v ≠ "" ∧ strptime_date (str_strip v) = Ok d.
Proof.
  unfold payload_date. simpl. destruct (m !! "date") as [[[]| |]|]; simpl;
    intros H; simplify_eq.
  exists s. split; [done|]. split; [|done]. intros E. rewrite E in H. discriminate H.
Qed.

Lemma payload_time_inv (m : gmap string json) key t :
  payload_time key (JDict m) = Ok t →
  ∃ v, m !! key = Some (JStr v) ∧ str_strip v ≠ "" ∧ strptime_time (str_strip v) = Ok t.
Proof.
  unfold payload_time. simpl. destruct (m !! key) as [[[]| |]|]; simpl;
    intros H; simplify_eq.
  exists s. split; [done|]. split; [|done]. intros E. rewrite E in H. discriminate H.
Qed.

Ltac step := cbn [mbind result_bind default from_option id py_strip try_except JStr JNone].

Lemma create_try_valid f db (m : gmap string json) n k c desc d ts te l mo :
  payload_stripped "name" (JDict m) = Ok n → n ≠ "" →
  payload_int "capacity" (JDict m) = Ok k → 0 < k →
  payload_int "creator_id" (JDict m) = Ok c →
  payload_date (JDict m) = Ok d →
  payload_time "start_time" (JDict m) = Ok ts →
  payload_time "end_time" (JDict m) = Ok te →
  payload_stripped "location" (JDict m) = Ok l → l ≠ "" →
  payload_stripped "mode" (JDict m) = Ok mo → mo ≠ "" →
  payload_description (JDict m) = Ok desc →
  create_try f db (JDict m) =
    match commit_fault f with
    | Some e => Raise e
    | None =>
        Ok ((mkdict [("message", JStr "Study room created");
                     ("room_id", JInt (next_id db))], 201),
            with_rooms db
              (<[next_id db := created_row (next_id db) n k c desc d ts te l mo]> (rooms db))
              (next_id db + 1))
    end.
Proof.
  intros Hn Hn0 Hk Hk0 Hc Hd Hts Hte Hl Hl0 Hmo Hmo0 Hdesc.
  apply payload_stripped_inv in Hn as (nv & En & <-); [|done].
  apply payload_int_inv in Hk as (kv & Ek & Hk).
  apply payload_int_inv in Hc as (cv & Ec & Hc).
  apply payload_date_inv in Hd as (dv & Ed & Hd0 & Hd).
  apply payload_time_inv in Hts as (sv & Es & Hs0 & Hts).
  apply payload_time_inv in Hte as (ev & Ee & He0 & Hte).
  apply payload_stripped_inv in Hl as (lv & El & <-); [|done].
  apply payload_stripped_inv in Hmo as (mv & Em & <-); [|done].
  unfold payload_description in Hdesc. unfold create_try.
  rewrite (json_truthy_dict m _ _ En). cbn [negb].
  rewrite all_in_all; cycle 1.
  { unfold required_fields. intros key Hkey.
    repeat (apply elem_of_cons in Hkey as [->|Hkey]; [by eexists|]).
    by apply elem_of_nil in Hkey. }
  cbn [mbind result_bind negb py_get]. rewrite En. step.
  rewrite bool_decide_eq_false_2 by done.
  rewrite Ek. step. rewrite Hk. step.
  rewrite (proj2 (Z.leb_gt k 0) Hk0).
  rewrite Ec. step. rewrite Hc. step.
  rewrite Ed. step. rewrite bool_decide_eq_false_2 by done.
  rewrite Hd. step.
  rewrite Es. step. rewrite bool_decide_eq_false_2 by done.
  rewrite Hts. step.
  rewrite Ee. step. rewrite bool_decide_eq_false_2 by done.
  rewrite Hte. step.
  rewrite El. step. rewrite bool_decide_eq_false_2 by done.
  rewrite Em. step. rewrite bool_decide_eq_false_2 by done.
  cbn [mbind result_bind py_get] in Hdesc. rewrite Hdesc.
  unfold commit_new. destruct (commit_fault f) as [e|]; [done|].
  cbn [mbind result_bind set_room_id StudyRoom_init room_id].
  rewrite jsonify_created. reflexivity.
Qed.

(** X1. A payload whose fields all pass validation is answered 201 with the
    key the storage assigns; the stored row holds the stripped strings, the
    integers [int] gives, the parsed date and both times combined with it;
    the other rows are kept and the next key moves up by one. *)
Theorem create_valid_payload f db (m : gmap string json) n k c desc d ts te l mo :
  payload_stripped "name" (JDict m) = Ok n → n ≠ "" →
  payload_int "capacity" (JDict m) = Ok k → 0 < k →
  payload_int "creator_id" (JDict m) = Ok c →
  payload_date (JDict m) = Ok d →
  payload_time "start_time" (JDict m) = Ok ts →
  payload_time "end_time" (JDict m) = Ok te →
  payload_stripped "location" (JDict m) = Ok l → l ≠ "" →
  payload_stripped "mode" (JDict m) = Ok mo → mo ≠ "" →
  payload_description (JDict m) = Ok desc →
  commit_fault f = None →
  create_study_room f db (JDict m) =
    ((mkdict [("message", JStr "Study room created"); ("room_id", JInt (next_id db))], 201),
     with_rooms db
       (<[next_id db := created_row (next_id db) n k c desc d ts te l mo]> (rooms db))
       (next_id db + 1)).
Proof.
  intros Hn Hn0 Hk Hk0 Hc Hd Hts Hte Hl Hl0 Hmo Hmo0 Hdesc Hcf.
  unfold create_study_room.
  rewrite (create_try_valid f db m n k c desc d ts te l mo) by done.
  by rewrite Hcf.
Qed.

Lemma create_valid_payload_witness :
  create_study_room no_faults empty_db (JDict (sample_payload (JStr " Lab ") (JStr "4"))) =
    ((mkdict [("message", JStr "Study room created"); ("room_id", JInt (next_id empty_db))], 201),
     with_rooms empty_db
       (<[next_id empty_db :=
            created_row (next_id empty_db) "Lab" 4 7 PyNone (Date 2024 6 1)
              (Time 9 0 0 0) (Time 10 30 0 0) "B1" "online"]> (rooms empty_db))
       (next_id empty_db + 1)).
Proof.
  apply (create_valid_payload no_faults empty_db
           (sample_payload (JStr " Lab ") (JStr "4"))
           "Lab" 4 7 PyNone (Date 2024 6 1) (Time 9 0 0 0) (Time 10 30 0 0) "B1" "online").
  - vm_compute. reflexivity.
  - vm_compute. discriminate.
  - vm_compute. reflexivity.
  - lia.
  - vm_compute. reflexivity.
  - vm_compute. reflexivity.
  - vm_compute. reflexivity.
  - vm_compute. reflexivity.
  - vm_compute. reflexivity.
  - vm_compute. discriminate.
  - vm_compute. reflexivity.
  - vm_compute. discriminate.
  - vm_compute. reflexivity.
  - reflexivity.
Defined.

(** X2. When the payload passes validation and the commit raises, the
    answer is 500 "Creation failed" with the text of the exception, and the
    database is as before. *)
Theorem create_commit_failure f db (m : gmap string json) n k c desc d ts te l mo e :
  payload_stripped "name" (JDict m) = Ok n → n ≠ "" →
  payload_int "capacity" (JDict m) = Ok k → 0 < k →
  payload_int "creator_id" (JDict m) = Ok c →
  payload_date (JDict m) = Ok d →
  payload_time "start_time" (JDict m) = Ok ts →
  payload_time "end_time" (JDict m) = Ok te →
  payload_stripped "location" (JDict m) = Ok l → l ≠ "" →
  payload_stripped "mode" (JDict m) = Ok mo → mo ≠ "" →
  payload_description (JDict m) = Ok desc →
  commit_fault f = Some e →
  create_study_room f db (JDict m) =
    ((mkdict [("message", JStr "Creation failed"); ("error", JStr (exn_str e))], 500), db).
Proof.
  intros Hn Hn0 Hk Hk0 Hc Hd Hts Hte Hl Hl0 Hmo Hmo0 Hdesc Hcf.
  unfold create_study_room.
  rewrite (create_try_valid f db m n k c desc d ts te l mo) by done.
  by rewrite Hcf.
Qed.

Lemma create_commit_failure_witness :
  create_study_room
    {| query_fault := None; load_fault := None;
       commit_fault := Some (Exn OtherError "foreign key violation") |}
    empty_db (JDict (sample_payload (JStr "Lab") (JInt 4))) =
    ((mkdict [("message", JStr "Creation failed");
              ("error", JStr (exn_str (Exn OtherError "foreign key violation")))], 500),
     empty_db).
Proof.
  apply (create_commit_failure _ empty_db (sample_payload (JStr "Lab") (JInt 4))
           "Lab" 4 7 PyNone (Date 2024 6 1) (Time 9 0 0 0) (Time 10 30 0 0) "B1" "online").
  - vm_compute. reflexivity.
  - vm_compute. discriminate.
  - vm_compute. reflexivity.
  - lia.
  - vm_compute. reflexivity.
  - vm_compute. reflexivity.
  - vm_compute. reflexivity.
  - vm_compute. reflexivity.
  - vm_compute. reflexivity.
  - vm_compute. discriminate.
  - vm_compute. reflexivity.
  - vm_compute. discriminate.
  - vm_compute. reflexivity.
  - reflexivity.
Defined.

(** X3. Without any one of the eight required keys, or with a falsy payload
    (null, an empty object, list or string, 0, false), create answers 400
    "Missing required fields" and stores nothing. *)
Theorem create_missing_required f db data :
  (json_truthy data = false ∨
   ∃ (m : gmap string json) k, data = JDict m ∧ k ∈ required_fields ∧ m !! k = None) →
  create_study_room f db data = ((message "Missing required fields", 400), db).
Proof.
  intros [Hf|(m & k & -> & Hk & Hm)]; unfold create_study_room, create_try.
  - by rewrite Hf.
  - destruct (json_truthy (JDict m)); cbn [negb]; [|done].
    by rewrite (all_in_missing m k _ Hk Hm).
Qed.

Lemma create_missing_required_witness :
  create_study_room no_faults sample_db
    (JDict (delete "mode" (sample_payload (JStr "Lab") (JInt 4))))
  = ((message "Missing required fields", 400), sample_db).
Proof.
  apply (create_missing_required no_faults sample_db).
  right. exists (delete "mode" (sample_payload (JStr "Lab") (JInt 4))), "mode".
  split; [reflexivity|]. split; [|vm_compute; reflexivity].
  unfold required_fields. repeat constructor.
Defined.

(** ** Create: what it does to the database *)

Lemma create_try_outcome f db data resp db' :
  create_try f db data = Ok (resp, db') →
  (status resp = 400 ∧ db' = db) ∨
  (status resp = 201 ∧
   ∃ row, room_id row = Some (next_id db) ∧
          db' = with_rooms db (<[next_id db := row]> (rooms db)) (next_id db + 1)).
Proof.
  intros H. unfold create_try in H. cbv zeta in H.
  assert (∀ (msg : string) (r : response) (d : database),
            Ok ((message msg, 400), db) = Ok (r, d) → status r = 400 ∧ d = db) as Hbad.
  { intros msg r d Heq. by injection Heq as <- <-. }
  repeat (inv_step H; try (by (left; eapply Hbad; eauto))).
  right. destruct v21 as [row db1]. unfold commit_new in E21.
  destruct (commit_fault f) eqn:Hcf; [discriminate E21|].
  injection E21 as <- <-.
  cbn [set_room_id room_id] in H. rewrite jsonify_created in H.
  cbn in H. injection H as <- <-. split; [done|]. eexists. split; [|reflexivity]. reflexivity.
Qed.

(** X4. Create changes the database only when it answers 201: then exactly
    the row under the key the storage assigns is added, the rows under all
    other keys and the users are as before, and the next key is one more.
    In every other case the answer is 400 or 500 and the database is
    untouched. *)
Theorem create_database_effect f db data :
  (status (create_study_room f db data).1 = 201 ∧
   (∃ row, room_id row = Some (next_id db) ∧
           rooms (create_study_room f db data).2 !! next_id db = Some row) ∧
   (∀ k, k ≠ next_id db →
      rooms (create_study_room f db data).2 !! k = rooms db !! k) ∧
   next_id (create_study_room f db data).2 = next_id db + 1 ∧
   users (create_study_room f db data).2 = users db) ∨
  ((status (create_study_room f db data).1 = 400 ∨
    status (create_study_room f db data).1 = 500) ∧
   (create_study_room f db data).2 = db).
Proof.
  unfold create_study_room. destruct (create_try f db data) as [[resp db']|e] eqn:E.
  - destruct (create_try_outcome _ _ _ _ _ E) as [[Hs ->]|(Hs & row & Hid & ->)].
    + right. split; [by left|done].
    + left. split; [done|]. cbn [snd with_rooms rooms next_id users].
      split; [exists row; by rewrite lookup_insert_eq|].
      split; [|done]. intros k Hk. by rewrite lookup_insert_ne.
  - right. split; [by right|done].
Qed.

(** X5. Two creates in a row that both succeed return different keys, and
    the row of the first is still stored after the second. *)
Theorem create_twice_distinct_ids f1 f2 db data1 data2 :
  status (create_study_room f1 db data1).1 = 201 →
  status (create_study_room f2 (create_study_room f1 db data1).2 data2).1 = 201 →
  ∃ id1 id2 row1,
    field (create_study_room f1 db data1).1.1 "room_id" = Some (JInt id1) ∧
    field (create_study_room f2 (create_study_room f1 db data1).2 data2).1.1 "room_id"
      = Some (JInt id2) ∧
    id1 ≠ id2 ∧
    rooms (create_study_room f1 db data1).2 !! id1 = Some row1 ∧
    rooms (create_study_room f2 (create_study_room f1 db data1).2 data2).2 !! id1
      = Some row1.
Proof.
  intros H1 H2.
  destruct (create_study_room f1 db data1) as [r1 db1] eqn:E1.
  cbn [fst snd] in *.
  destruct (create_study_room f2 db1 data2) as [r2 db2] eqn:E2.
  cbn [fst snd] in *.
  pose proof (create_study_room_created _ _ _ _ _ E1 H1) as T1.
  pose proof (create_study_room_created _ _ _ _ _ E2 H2) as T2.
  destruct (create_try_created _ _ _ _ _ T1 H1)
    as (? & ? & ? & row1 & _ & _ & _ & _ & _ & _ & _ & _ & _ & _ & _ & _ & _ & Hr1 & _ & _ & _ & ->).
  destruct (create_try_created _ _ _ _ _ T2 H2)
    as (? & ? & ? & row2 & _ & _ & _ & _ & _ & _ & _ & _ & _ & _ & _ & _ & _ & Hr2 & _ & _ & _ & ->).
  destruct (create_try_outcome _ _ _ _ _ T1) as [[Hs _]|(_ & row1' & _ & Hdb1)];
    [rewrite Hs in H1; discriminate H1|].
  exists (next_id db), (next_id db1), row1.
  split; [vm_compute; reflexivity|]. split; [vm_compute; reflexivity|].
  assert (next_id db1 = next_id db + 1) as Hn by (by rewrite Hdb1).
  split; [lia|]. rewrite Hr1, lookup_insert_eq. split; [done|].
  rewrite Hr2, lookup_insert_ne by lia. by rewrite Hr1, lookup_insert_eq.
Qed.

Lemma create_twice_distinct_ids_witness :
  ∃ id1 id2 row1,
    field (create_study_room no_faults empty_db
             (JDict (sample_payload (JStr "A") (JInt 4)))).1.1 "room_id" = Some (JInt id1) ∧
    field (create_study_room no_faults
             (create_study_room no_faults empty_db
                (JDict (sample_payload (JStr "A") (JInt 4)))).2
             (JDict (sample_payload (JStr "B") (JInt 2)))).1.1 "room_id" = Some (JInt id2) ∧
    id1 ≠ id2 ∧
    rooms (create_study_room no_faults empty_db
             (JDict (sample_payload (JStr "A") (JInt 4)))).2 !! id1 = Some row1 ∧
    rooms (create_study_room no_faults
             (create_study_room no_faults empty_db
                (JDict (sample_payload (JStr "A") (JInt 4)))).2
             (JDict (sample_payload (JStr "B") (JInt 2)))).2 !! id1 = Some row1.
Proof.
  apply (create_twice_distinct_ids no_faults no_faults empty_db
           (JDict (sample_payload (JStr "A") (JInt 4)))
           (JDict (sample_payload (JStr "B") (JInt 2)))).
  - vm_compute. reflexivity.
  - vm_compute. reflexivity.
Defined.

(** ** Create: the date check *)

Lemma strptime_groups_raise fmt s e :
  strptime_groups fmt s = Raise e → exn_kind e = ValueError.
Proof.
  unfold strptime_groups. destruct (match_format fmt s) as [|[gs [|]] tl];
    intros H; by simplify_eq.
Qed.

Lemma strptime_date_raise s e : strptime_date s = Raise e → value_error e = true.
Proof.
  unfold strptime_date, value_error.
  destruct (strptime_groups fmt_Ymd s) as [gs|e0] eqn:E; cbn [mbind result_bind].
  - destruct gs as [|ys [|ms [|ds [|]]]]; try (intros H; by simplify_eq).
    destruct (int_of_str ys) as [y|e1] eqn:Ey; cbn [mbind result_bind];
      [|intros H; simplify_eq; by rewrite (int_of_str_raise _ _ Ey)].
    destruct (int_of_str ms) as [m|e1] eqn:Em; cbn [mbind result_bind];
      [|intros H; simplify_eq; by rewrite (int_of_str_raise _ _ Em)].
    destruct (int_of_str ds) as [d|e1] eqn:Ed; cbn [mbind result_bind];
      [|intros H; simplify_eq; by rewrite (int_of_str_raise _ _ Ed)].
    destruct (valid_date _); intros H; by simplify_eq.
  - intros H. simplify_eq. by rewrite (strptime_groups_raise _ _ _ E).
Qed.

(** X6. With all required keys present and [name], [capacity] and
    [creator_id] valid, a [date] that is blank after stripping is answered
    400 "Date is required", and one that [strptime] rejects (wrong shape, or
    no calendar date, such as 2024-02-30) is answered 400 "Invalid date
    format, expected YYYY-MM-DD"; nothing is stored. *)
Theorem create_invalid_date f db (m : gmap string json) n k c s :
  (∀ key, key ∈ required_fields → is_Some (m !! key)) →
  payload_stripped "name" (JDict m) = Ok n → n ≠ "" →
  payload_int "capacity" (JDict m) = Ok k → 0 < k →
  payload_int "creator_id" (JDict m) = Ok c →
  m !! "date" = Some (JStr s) →
  (∀ d, strptime_date (str_strip s) ≠ Ok d) →
  create_study_room f db (JDict m) =
    ((message (if bool_decide (str_strip s = "") then "Date is required"
               else "Invalid date format, expected YYYY-MM-DD"), 400), db).
Proof.
  intros Hall Hn Hn0 Hk Hk0 Hc Ed Hbad.
  apply payload_stripped_inv in Hn as (nv & En & <-); [|done].
  apply payload_int_inv in Hk as (kv & Ek & Hk).
  apply payload_int_inv in Hc as (cv & Ec & Hc).
  unfold create_study_room, create_try.
  rewrite (json_truthy_dict m _ _ En). cbn [negb].
  rewrite all_in_all by done.
  cbn [mbind result_bind negb py_get]. rewrite En. step.
  rewrite bool_decide_eq_false_2 by done.
  rewrite Ek. step. rewrite Hk. step.
  rewrite (proj2 (Z.leb_gt k 0) Hk0).
  rewrite Ec. step. rewrite Hc. step.
  rewrite Ed. step. destruct (bool_decide (str_strip s = "")); [done|].
  destruct (strptime_date (str_strip s)) as [d|e] eqn:E; [by destruct (Hbad d)|].
  step. by rewrite (strptime_date_raise _ _ E).
Qed.

Lemma create_invalid_date_witness :
  create_study_room no_faults empty_db
    (JDict (<["date" := JStr "2024-02-30"]> (sample_payload (JStr "Lab") (JInt 4)))) =
    ((message (if bool_decide (str_strip "2024-02-30" = "") then "Date is required"
               else "Invalid date format, expected YYYY-MM-DD"), 400), empty_db).
Proof.
  apply (create_invalid_date no_faults empty_db
           (<["date" := JStr "2024-02-30"]> (sample_payload (JStr "Lab") (JInt 4)))
           "Lab" 4 7 "2024-02-30").
  - intros key Hkey. unfold required_fields in Hkey.
    repeat (apply elem_of_cons in Hkey as [->|Hkey]; [vm_compute; eauto|]).
    by apply elem_of_nil in Hkey.
  - vm_compute. reflexivity.
  - vm_compute. discriminate.
  - vm_compute. reflexivity.
  - lia.
  - vm_compute. reflexivity.
  - vm_compute. reflexivity.
  - intros d. vm_compute. discriminate.
Defined.

(** ** Update: what it does to the database *)

Lemma update_stripped_keeps key set data room r :
  keeps_keys set →
  update_stripped key set data room = Ok (Continue r) →
  room_id r = room_id room ∧ creator_id r = creator_id room.
Proof.
  intros Hset. unfold update_stripped.
  destruct (py_in key data) as [[|]|]; cbn [mbind result_bind]; [| |done].
  - destruct (py_getitem data key) as [v|]; cbn [mbind result_bind]; [|done].
    destruct (py_strip v) as [s|]; cbn [mbind result_bind]; [|done].
    intros H. simplify_eq. apply Hset.
  - intros H. by simplify_eq.
Qed.

Lemma update_capacity_keeps data room r :
  update_capacity data room = Ok (Continue r) →
  room_id r = room_id room ∧ creator_id r = creator_id room.
Proof.
  unfold update_capacity, try_except.
  destruct (py_in "capacity" data) as [[|]|]; cbn [mbind result_bind]; [| |done].
  - destruct (py_getitem data "capacity" ≫= _) as [n|e].
    + intros H. by simplify_eq.
    + destruct (value_or_type_error e); intros H; by simplify_eq.
  - intros H. by simplify_eq.
Qed.

Lemma update_date_keeps data room r :
  update_date data room = Ok (Continue r) →
  room_id r = room_id room ∧ creator_id r = creator_id room.
Proof.
  unfold update_date, try_except.
  destruct (py_in "date" data) as [[|]|]; cbn [mbind result_bind]; [| |done].
  - destruct (py_getitem data "date") as [v|]; cbn [mbind result_bind]; [|done].
    destruct (py_strip v) as [s|]; cbn [mbind result_bind]; [|done].
    destruct (strptime_date s) as [d|e].
    + intros H. by simplify_eq.
    + destruct (value_error e); intros H; by simplify_eq.
  - intros H. by simplify_eq.
Qed.

Lemma update_time_keeps key set msg data room r :
  keeps_keys set →
  update_time key set msg data room = Ok (Continue r) →
  room_id r = room_id room ∧ creator_id r = creator_id room.
Proof.
  intros Hset. unfold update_time, try_except.
  destruct (py_in key data) as [[|]|]; cbn [mbind result_bind]; [| |done].
  - destruct (py_getitem data key) as [v|]; cbn [mbind result_bind]; [|done].
    destruct (py_strip v) as [s|]; cbn [mbind result_bind]; [|done].
    destruct (strptime_time s ≫= _) as [dt|e].
    + intros H. simplify_eq. apply Hset.
    + destruct (value_error e); intros H; by simplify_eq.
  - intros H. by simplify_eq.
Qed.

Lemma update_fields_keeps data room room' :
  update_fields data room = Ok (Continue room') →
  room_id room' = room_id room ∧ creator_id room' = creator_id room.
Proof.
  unfold update_fields. intros H.
  apply and_then_continue in H as (r1 & H1 & H).
  apply update_stripped_keeps in H1 as [A1 B1]; [|done].
  apply and_then_continue in H as (r2 & H2 & H).
  apply update_stripped_keeps in H2 as [A2 B2]; [|done].
  apply and_then_continue in H as (r3 & H3 & H). apply update_capacity_keeps in H3 as [A3 B3].
  apply and_then_continue in H as (r4 & H4 & H). apply update_date_keeps in H4 as [A4 B4].
  apply and_then_continue in H as (r5 & H5 & H).
  apply update_time_keeps in H5 as [A5 B5]; [|done].
  apply and_then_continue in H as (r6 & H6 & H).
  apply update_time_keeps in H6 as [A6 B6]; [|done].
  apply and_then_continue in H as (r7 & H7 & H).
  apply update_stripped_keeps in H7 as [A7 B7]; [|done].
  apply update_stripped_keeps in H as [A8 B8]; [|done].
  split; congruence.
Qed.

(** The shapes of what the update handler returns *)
Lemma update_study_room_cases f db id data :
  (update_study_room f db id data).2 = db ∧
  status (update_study_room f db id data).1.1 ≠ 200
  ∨ ∃ room room',
      query_get f db id = Ok (Some room) ∧ commit_fault f = None ∧
      update_fields (if json_truthy data then data else JDict ∅) room
        = Ok (Continue room') ∧
      (update_study_room f db id data).1.2 = Some room' ∧
      (update_study_room f db id data).2
        = with_rooms db (<[id := room']> (rooms db)) (next_id db) ∧
      (status (update_study_room f db id data).1.1 = 200 ∨
       status (update_study_room f db id data).1.1 = 500).
Proof.
  unfold update_study_room.
  destruct (query_get f db id) as [[room|]|e] eqn:Hq; [|by left|by left].
  destruct (update_fields _ room) as [[room'|room' msg]|e] eqn:Hf; [|by left|by left].
  destruct (commit_fault f) as [e|] eqn:Hc; [by left|].
  right. exists room, room'. repeat (split; [done|]).
  destruct (jsonify _ 200) as [r|e] eqn:E.
  - apply jsonify_ok in E. subst r. repeat split; by left.
  - repeat split; by right.
Qed.

(** X7. An update leaves the next key, the users and every row under
    another key as they were; it leaves the whole database as it was when it
    answers 400 or 404, when the commit raises, and when no row has the id;
    and the row it stores has the [room_id] and [creator_id] of the row it
    found. *)
Theorem update_database_effect f db id data :
  next_id (update_study_room f db id data).2 = next_id db ∧
  users (update_study_room f db id data).2 = users db ∧
  creator_rel (update_study_room f db id data).2 = creator_rel db ∧
  (∀ j, j ≠ id → rooms (update_study_room f db id data).2 !! j = rooms db !! j) ∧
  (status (update_study_room f db id data).1.1 = 400 ∨
   status (update_study_room f db id data).1.1 = 404 ∨
   is_Some (commit_fault f) ∨ query_get f db id = Ok None →
   (update_study_room f db id data).2 = db) ∧
  (∀ room', rooms (update_study_room f db id data).2 !! id = Some room' →
     ∃ room, rooms db !! id = Some room ∧
             room_id room' = room_id room ∧ creator_id room' = creator_id room).
Proof.
  destruct (update_study_room_cases f db id data)
    as [[-> Hs]|(room & room' & Hq & Hc & Hf & _ & -> & Hs)].
  - do 5 (split; [done|]). intros room' Hr. by exists room'.
  - cbn [with_rooms rooms next_id users creator_rel].
    do 3 (split; [done|]). split; [|split].
    + intros j Hj. by rewrite lookup_insert_ne.
    + intros [H|[H|[[e H]|H]]].
      * destruct Hs as [Hs|Hs]; rewrite Hs in H; discriminate H.
      * destruct Hs as [Hs|Hs]; rewrite Hs in H; discriminate H.
      * rewrite Hc in H. discriminate H.
      * rewrite Hq in H. discriminate H.
    + intros r Hr. rewrite lookup_insert_eq in Hr. injection Hr as <-.
      exists room. apply query_get_some in Hq as [Hq _].
      split; [done|]. by apply update_fields_keeps in Hf.
Qed.

(** X8. A falsy payload (null, an empty object) updates nothing: with the
    row found and the commit going through, the database is as before, the
    row object is the row found, and the answer is its canonical
    serialization with 200 when the JSON encoder accepts it, and 500 "Update
    failed" with the encoder's TypeError when it does not. *)
Theorem update_falsy_payload f db id data room :
  json_truthy data = false →
  query_get f db id = Ok (Some room) →
  commit_fault f = None →
  (update_study_room f db id data).2 = db ∧
  (update_study_room f db id data).1.2 = Some room ∧
  (encodable (to_dict f db room) = true →
   (update_study_room f db id data).1.1 = (to_dict f db room, 200)) ∧
  (encodable (to_dict f db room) = false →
   (update_study_room f db id data).1.1
   = update_failed (Exn TypeError "Object is not JSON serializable")).
Proof.
  intros Hd Hq Hc. unfold update_study_room. rewrite Hq, Hd.
  assert (update_fields (JDict ∅) room = Ok (Continue room)) as -> by reflexivity.
  rewrite Hc.
  assert ({| rooms := <[id := room]> (rooms db); next_id := next_id db;
             users := users db; creator_rel := creator_rel db |} = db) as ->.
  { apply query_get_some in Hq as [Hq _].
    rewrite (insert_id _ _ _ Hq). by destruct db. }
  unfold jsonify. destruct (encodable _); cbn [fst snd]; by split_and!.
Qed.

Lemma update_falsy_payload_witness :
  (update_study_room no_faults sample_db 1 (JDict ∅)).2 = sample_db ∧
  (update_study_room no_faults sample_db 1 (JDict ∅)).1.2 = Some sample_room ∧
  (update_study_room no_faults sample_db 1 (JDict ∅)).1.1
    = (to_dict no_faults sample_db sample_room, 200).
Proof.
  destruct (update_falsy_payload no_faults sample_db 1 (JDict ∅) sample_room)
    as (H1 & H2 & H3 & _).
  - vm_compute. reflexivity.
  - vm_compute. reflexivity.
  - reflexivity.
  - split; [exact H1|]. split; [exact H2|]. apply H3. vm_compute. reflexivity.
Defined.

(** ** Update: the answer *)

Lemma to_dict_time_str_datetime dt :
  to_dict_time_str (PyDateTime dt) = Ok (time_strftime_HM (dt_time dt)).
Proof. reflexivity. Qed.

Lemma to_dict_try_dates f db room d st et :
  load_fault f = None →
  date room = PyDate d → start_time room = PyDateTime st → end_time room = PyDateTime et →
  ∃ body, to_dict f db room = body ∧
    field body "date" = Some (JStr (date_isoformat d)) ∧
    field body "start_time" = Some (JStr (time_strftime_HM (dt_time st))) ∧
    field body "end_time" = Some (JStr (time_strftime_HM (dt_time et))) ∧
    field body "error" = None.
Proof.
  intros Hl Hd Hst Het. unfold to_dict, to_dict_try.
  rewrite Hd, Hst, Het, !to_dict_time_str_datetime.
  assert (to_dict_date_str (PyDate d) = Ok (date_isoformat d)) as -> by reflexivity.
  destruct (creator_data_no_fault f db room Hl) as [->|[u ->]];
    cbn [mbind result_bind]; eexists; (split; [reflexivity|]);
    match goal with
    | |- context [mkdict [(_, ?a1); (_, ?a2); (_, ?a3); (_, ?a4); (_, ?a5); (_, ?a6);
                          (_, ?a7); (_, ?a8); (_, ?a9); (_, ?a10); (_, ?a11); (_, ?a12);
                          (_, ?a13); (_, ?a14); (_, ?a15)]] =>
        pose proof (to_dict_fields a1 a2 a3 a4 a5 a6 a7 a8 a9 a10 a11 a12 a13 a14 a15) as Hf
    end;
    cbv zeta in Hf; destruct Hf as (_ & H1 & H2 & H3 & H4); done.
Qed.

(** X9. When an update is answered 200 (the creator loading without
    fault) and its payload gives the ISO form of a valid date and two HH:MM
    times, the body of the answer carries exactly those three strings and no
    [error]. *)
Theorem update_response_round_trip f db id room (m : gmap string json)
    d hs ms he me resp mem db' :
  query_get f db id = Ok (Some room) →
  load_fault f = None →
  valid_date d = true →
  0 ≤ hs ≤ 23 → 0 ≤ ms ≤ 59 → 0 ≤ he ≤ 23 → 0 ≤ me ≤ 59 →
  m !! "date" = Some (JStr (date_isoformat d)) →
  m !! "start_time" = Some (JStr (pad2 hs +:+ ":" +:+ pad2 ms)) →
  m !! "end_time" = Some (JStr (pad2 he +:+ ":" +:+ pad2 me)) →
  update_study_room f db id (JDict m) = (resp, mem, db') →
  status resp = 200 →
  field resp.1 "date" = Some (JStr (date_isoformat d)) ∧
  field resp.1 "start_time" = Some (JStr (pad2 hs +:+ ":" +:+ pad2 ms)) ∧
  field resp.1 "end_time" = Some (JStr (pad2 he +:+ ":" +:+ pad2 me)) ∧
  field resp.1 "error" = None.
Proof.
  intros Hq Hl Hd Hhs Hms Hhe Hme Ed Es Ee Hu Hs.
  destruct (update_study_room_ok _ _ _ _ _ _ _ _ Hq Hu Hs)
    as (room' & Hf & _ & _ & _ & _ & _ & _ & ->).
  apply update_fields_ok in Hf as [(r & Heq & HF)|(r & stage & msg' & Heq & _)];
    [|discriminate Heq].
  injection Heq as <-.
  destruct HF as (_ & _ & _ & _ & _ & Hd' & Hst & Het & _).
  cbn [Nat.leb] in Hd', Hst, Het. unfold applied_date in Hd'. unfold applied_time in Hst, Het.
  rewrite Ed in Hd'. rewrite Es in Hst. rewrite Ee in Het.
  destruct Hd' as (s & d' & Hs1 & Hp & Hdate). injection Hs1 as <-.
  rewrite (str_strip_no_space _ (date_isoformat_no_space d Hd)) in Hp.
  rewrite (strptime_date_isoformat d Hd) in Hp. injection Hp as <-.
  destruct (strptime_time_pad hs ms Hhs Hms) as [Hp1 Hs1].
  destruct (strptime_time_pad he me Hhe Hme) as [Hp2 Hs2].
  destruct Hst as (s & t & dt1 & Hx & Hpt & Hst & Ht1 & _). injection Hx as <-.
  rewrite Hs1, Hp1 in Hpt. injection Hpt as <-.
  destruct Het as (s & t & dt2 & Hx & Hpt & Het & Ht2 & _). injection Hx as <-.
  rewrite Hs2, Hp2 in Hpt. injection Hpt as <-.
  destruct (to_dict_try_dates f db' room' d _ _ Hl Hdate Hst Het)
    as (body & Hb & H1 & H2 & H3 & H4).
  cbn [fst]. rewrite Hb, H1, H2, H3, H4, Ht1, Ht2. done.
Qed.

Lemma update_response_round_trip_witness :
  field (update_study_room no_faults sample_db 1
           (JDict (sample_payload (JStr "Lab") (JInt 4)))).1.1.1 "date"
    = Some (JStr (date_isoformat (Date 2024 6 1))) ∧
  field (update_study_room no_faults sample_db 1
           (JDict (sample_payload (JStr "Lab") (JInt 4)))).1.1.1 "start_time"
    = Some (JStr (pad2 9 +:+ ":" +:+ pad2 0)) ∧
  field (update_study_room no_faults sample_db 1
           (JDict (sample_payload (JStr "Lab") (JInt 4)))).1.1.1 "end_time"
    = Some (JStr (pad2 10 +:+ ":" +:+ pad2 30)) ∧
  field (update_study_room no_faults sample_db 1
           (JDict (sample_payload (JStr "Lab") (JInt 4)))).1.1.1 "error" = None.
Proof.
  apply (update_response_round_trip no_faults sample_db 1 sample_room
           (sample_payload (JStr "Lab") (JInt 4)) (Date 2024 6 1) 9 0 10 30
           (update_study_room no_faults sample_db 1
              (JDict (sample_payload (JStr "Lab") (JInt 4)))).1.1
           (update_study_room no_faults sample_db 1
              (JDict (sample_payload (JStr "Lab") (JInt 4)))).1.2
           (update_study_room no_faults sample_db 1
              (JDict (sample_payload (JStr "Lab") (JInt 4)))).2).
  - vm_compute. reflexivity.
  - reflexivity.
  - vm_compute. reflexivity.
  - lia.
  - lia.
  - lia.
  - lia.
  - vm_compute. reflexivity.
  - vm_compute. reflexivity.
  - vm_compute. reflexivity.
  - vm_compute. reflexivity.
  - vm_compute. reflexivity.
Defined.

(** ** Delete *)

(** X10. Deleting a row that is found, the commit going through, is
    answered 200; the row is gone, so that a fetch-one of the same id is
    answered 404 "Room not found" and a second delete 404 as well; the rows
    under other keys and the users are as before. *)
Theorem delete_then_fetch f db id room :
  query_get f db id = Ok (Some room) → commit_fault f = None →
  (delete_study_room f db id).1 = (message "Room deleted successfully", 200) ∧
  rooms (delete_study_room f db id).2 !! id = None ∧
  get_study_room f (delete_study_room f db id).2 id = (message "Room not found", 404) ∧
  delete_study_room f (delete_study_room f db id).2 id
    = ((message "Room not found", 404), (delete_study_room f db id).2) ∧
  (∀ j, j ≠ id → rooms (delete_study_room f db id).2 !! j = rooms db !! j) ∧
  users (delete_study_room f db id).2 = users db.
Proof.
  intros Hq Hc.
  assert (delete_study_room f db id =
            ((message "Room deleted successfully", 200),
             with_rooms db (delete id (rooms db)) (next_id db))) as ->.
  { unfold delete_study_room. by rewrite Hq, Hc. }
  assert (query_fault f = None) as Hf.
  { unfold query_get in Hq. by destruct (query_fault f). }
  cbn [fst snd with_rooms rooms users].
  split; [done|]. split; [by rewrite lookup_delete_eq|].
  split; [|split].
  - unfold get_study_room, query_get. rewrite Hf. cbn [rooms with_rooms].
    by rewrite lookup_delete_eq.
  - unfold delete_study_room, query_get. rewrite Hf. cbn [rooms with_rooms].
    by rewrite lookup_delete_eq.
  - split; [|done]. intros j Hj. by rewrite lookup_delete_ne.
Qed.

Lemma delete_then_fetch_witness :
  (delete_study_room no_faults sample_db 1).1 = (message "Room deleted successfully", 200) ∧
  rooms (delete_study_room no_faults sample_db 1).2 !! 1 = None ∧
  get_study_room no_faults (delete_study_room no_faults sample_db 1).2 1
    = (message "Room not found", 404) ∧
  delete_study_room no_faults (delete_study_room no_faults sample_db 1).2 1
    = ((message "Room not found", 404), (delete_study_room no_faults sample_db 1).2) ∧
  (∀ j, j ≠ 1 → rooms (delete_study_room no_faults sample_db 1).2 !! j
                = rooms sample_db !! j) ∧
  users (delete_study_room no_faults sample_db 1).2 = users sample_db.
Proof.
  apply (delete_then_fetch no_faults sample_db 1 sample_room).
  - vm_compute. reflexivity.
  - reflexivity.
Defined.

(** X11. Delete answers 200, 404 or 500, and changes the database only when
    it answers 200: a missing id is answered 404 "Room not found", a raising
    lookup (the query, or the load of the row) or commit 500 "Delete failed"
    with the text of the exception, and in both cases the database is as
    before. *)
Theorem delete_failures f db id :
  (status (delete_study_room f db id).1 = 200 ∨
   status (delete_study_room f db id).1 = 404 ∨
   status (delete_study_room f db id).1 = 500) ∧
  (status (delete_study_room f db id).1 ≠ 200 → (delete_study_room f db id).2 = db) ∧
  (query_get f db id = Ok None →
   delete_study_room f db id = ((message "Room not found", 404), db)) ∧
  (∀ e, query_get f db id = Raise e ∨
        ((∃ room, query_get f db id = Ok (Some room)) ∧ commit_fault f = Some e) →
     delete_study_room f db id = (delete_failed e, db)).
Proof.
  unfold delete_study_room.
  destruct (query_get f db id) as [[room|]|e] eqn:Hq.
  - destruct (commit_fault f) as [e|] eqn:Hc.
    + split; [by right; right|]. split; [done|]. split; [done|].
      intros e' [H|(_ & H)]; by simplify_eq.
    + split; [by left|]. split; [done|]. split; [done|].
      intros e' [H|(_ & H)]; by simplify_eq.
  - split; [by right; left|]. split; [done|]. split; [done|].
    intros e' [H|([? H] & _)]; by simplify_eq.
  - split; [by right; right|]. split; [done|]. split; [done|].
    intros e' [H|([? H] & _)]; by simplify_eq.
Qed.

Lemma delete_failures_witness :
  delete_study_room no_faults sample_db 99 = ((message "Room not found", 404), sample_db).
Proof.
  apply (proj1 (proj2 (proj2 (delete_failures no_faults sample_db 99)))).
  vm_compute. reflexivity.
Defined.

(** ** Fetch-all: one element per row *)

(** X12. The body of a fetch-all answer is the empty list, or a list with
    exactly one element per stored row; it is the empty list when the store
    is empty, when the query raises and when a stored row cannot be loaded;
    and it is the full list whenever the query works, every row loads and
    the JSON encoder accepts every element. *)
Theorem get_all_one_per_row f db :
  (∀ items, (get_all_study_rooms f db).1 = JList items →
     items = [] ∨ length items = size (rooms db)) ∧
  (rooms db = ∅ → get_all_study_rooms f db = (JList [], 200)) ∧
  (is_Some (query_fault f) → get_all_study_rooms f db = (JList [], 200)) ∧
  (∀ id row, rooms db !! id = Some row → row_loads row = false →
     get_all_study_rooms f db = (JList [], 200)) ∧
  (query_fault f = None →
   forallb row_loads (map_to_list (rooms db)).*2 = true →
   encodable (JList (room_data f db <$> (map_to_list (rooms db)).*2)) = true →
   get_all_study_rooms f db
     = (JList (room_data f db <$> (map_to_list (rooms db)).*2), 200)).
Proof.
  split; [|split; [|split; [|split]]].
  - intros items Hb. destruct (get_all_body f db) as [E|(rows & Hr & E)]; rewrite E in Hb.
    + left. by injection Hb as <-.
    + right. injection Hb as <-. unfold query_all in Hr.
      destruct (query_fault f); [done|]. cbv zeta in Hr.
      destruct (forallb row_loads _); [|done]. injection Hr as <-.
      by rewrite !length_fmap, length_map_to_list.
  - intros He. unfold get_all_study_rooms, query_all. rewrite He, map_to_list_empty.
    by destruct (query_fault f).
  - intros [e He]. unfold get_all_study_rooms, query_all. by rewrite He.
  - intros id row Hr Hl. unfold get_all_study_rooms.
    destruct (query_all f db) as [rows|e] eqn:Hq; [|done].
    destruct (query_all_rows _ _ _ _ _ Hq Hr) as [_ Hl']. congruence.
  - intros Hq Hl He. unfold get_all_study_rooms, query_all. rewrite Hq. cbv zeta.
    rewrite Hl. cbn [mbind result_bind]. unfold jsonify. by rewrite He.
Qed.

Lemma get_all_one_per_row_witness :
  get_all_study_rooms no_faults sample_db
  = (JList (room_data no_faults sample_db <$> (map_to_list (rooms sample_db)).*2), 200).
Proof.
  apply (proj2 (proj2 (proj2 (proj2 (get_all_one_per_row no_faults sample_db))))).
  - reflexivity.
  - vm_compute. reflexivity.
  - vm_compute. reflexivity.
Defined.

(** ** Fetch-one and the canonical serialization *)

Lemma str_or_nonempty s d : s ≠ "" → str_or s d = s.
Proof. intros H. unfold str_or. by rewrite bool_decide_eq_false_2. Qed.

Lemma time_strftime_HM_nonempty t : time_strftime_HM t ≠ "".
Proof. done. Qed.

Section same_dict.
Variables v1 v2 v3 v4 v5 v6 v7 v8 v9 v10 v11 v12 v13 v14 v15 : json.

(** The dict displays of [get_study_room] and of [to_dict] list the same
    keys in two orders *)
Lemma get_body_to_dict_body :
  mkdict [("room_id", v1); ("id", v2); ("name", v3); ("subject", v4);
          ("capacity", v5); ("description", v6); ("participants", v7);
          ("host", v8); ("creator_id", v9); ("creator", v10);
          ("date", v11); ("start_time", v12); ("end_time", v13);
          ("location", v14); ("mode", v15)]
  = mkdict [("room_id", v1); ("id", v2); ("name", v3); ("subject", v4);
            ("description", v6); ("capacity", v5); ("participants", v7);
            ("host", v8); ("creator_id", v9); ("creator", v10);
            ("date", v11); ("start_time", v12); ("end_time", v13);
            ("location", v14); ("mode", v15)].
Proof. vm_compute. reflexivity. Qed.
End same_dict.

(** X13. For a found row whose [date] is a date and whose times are
    datetimes, the creator loading without fault, the body of a fetch-one
    that carries no [error] is the canonical serialization of the row. *)
Theorem fetch_one_agrees_with_to_dict f db id room d st et :
  query_get f db id = Ok (Some room) →
  load_fault f = None →
  date room = PyDate d → start_time room = PyDateTime st → end_time room = PyDateTime et →
  field (get_study_room f db id).1 "error" = None →
  (get_study_room f db id).1 = to_dict f db room.
Proof.
  intros Hq Hl Hd Hst Het. unfold get_study_room. rewrite Hq.
  destruct (get_try f db room) as [r|e] eqn:E; cycle 1.
  { cbn [fst]. intros Herr.
    destruct (get_placeholder_fields "Room " id e) as (_ & _ & _ & He).
    rewrite He in Herr. discriminate Herr. }
  intros _. unfold get_try in E. unfold to_dict, to_dict_try.
  rewrite Hd, Hst, Het in *. rewrite !to_dict_time_str_datetime.
  assert (to_dict_date_str (PyDate d) = Ok (date_isoformat d)) as -> by reflexivity.
  assert (read_date_str (PyDate d) = Ok (Some (date_isoformat d))) as Hrd by reflexivity.
  assert (∀ dt, read_time_str (PyDateTime dt) = Ok (time_strftime_HM (dt_time dt))) as Hrt
    by reflexivity.
  rewrite Hrd, !Hrt in E.
  destruct (creator_data_no_fault f db room Hl) as [Hc|[u Hc]]; rewrite Hc in *;
    cbn [mbind result_bind default from_option Datatypes.id] in *;
    rewrite str_or_empty, !(str_or_nonempty _ _ (time_strftime_HM_nonempty _)) in E;
    apply jsonify_ok in E; subst r; cbn [fst]; apply get_body_to_dict_body.
Qed.

Lemma fetch_one_agrees_with_to_dict_witness :
  (get_study_room no_faults sample_db 1).1 = to_dict no_faults sample_db sample_room.
Proof.
  apply (fetch_one_agrees_with_to_dict no_faults sample_db 1 sample_room
           (Date 2024 6 1) (DateTime (Date 2024 6 1) (Time 9 0 0 0))
           (DateTime (Date 2024 6 1) (Time 10 30 0 0))).
  - vm_compute. reflexivity.
  - reflexivity.
  - reflexivity.
  - reflexivity.
  - reflexivity.
  - vm_compute. reflexivity.
Defined.

(** ** Update: a field of the wrong type *)

(** X15. When the payload's [name] is not a string, stripping it raises:
    the update is answered 500 "Update failed" with the text of the
    exception (not 400), the database is as before, and the rollback leaves
    the row object as it was found. *)
Theorem update_name_not_a_string f db id room (m : gmap string json) v :
  query_get f db id = Ok (Some room) →
  m !! "name" = Some v →
  (∀ s, v ≠ JStr s) →
  update_study_room f db id (JDict m) =
    (update_failed (attribute_error (json_type_name v) "strip"), Some room, db).
Proof.
  intros Hq Hn Hv. unfold update_study_room. rewrite Hq, update_payload_dict.
  unfold update_fields, update_stripped at 1.
  rewrite (py_in_dict m _ _ Hn). cbn [mbind result_bind py_getitem]. rewrite Hn.
  destruct v as [[| | |s| | | |]| |]; try done.
  by destruct (Hv s).
Qed.

Lemma update_name_not_a_string_witness :
  update_study_room no_faults sample_db 1 (mkdict [("name", JInt 5)]) =
    (update_failed (attribute_error (json_type_name (JInt 5)) "strip"),
     Some sample_room, sample_db).
Proof.
  apply (update_name_not_a_string no_faults sample_db 1 sample_room
           (list_to_map [("name", JInt 5)]) (JInt 5)).
  - vm_compute. reflexivity.
  - vm_compute. reflexivity.
  - intros s. discriminate.
Defined.

(** The text of that answer *)
Example update_name_not_a_string_body :
  (update_study_room no_faults sample_db 1 (mkdict [("name", JInt 5)])).1.1 =
    (mkdict [("message", JStr "Update failed");
             ("error", JStr "'int' object has no attribute 'strip'")], 500).
Proof. vm_compute. reflexivity. Qed.
